(** * A shallow embedding of [app.py], the PostgreSQL explorer

  The script asks a language model questions about a database schema,
  extracts SQL from the model's answers, runs it, and dispatches the
  commands typed at an interactive prompt.

  Layout of the development:
  - [PyStr]: the Python string operations the script uses;
  - [Extract]: the SQL extraction loop of [generate_sql_query];
  - [Effects]: exceptions, the trace of external calls, and the monad that
    threads the outside world through the script;
  - [App]: the functions of [app.py], one definition per function;
  - [Sim]: a small concrete outside world on which the script can be run;
  - the properties, in the order of the numbered claims. *)

From Stdlib Require Import String Ascii List Bool Arith NArith ZArith Lia.
Import ListNotations.

Local Open Scope string_scope.
Local Open Scope list_scope.

(** ** Python strings

  A Python [str] is modelled as a [string] whose characters are code
  points below 256, so [isspace] and [lower] follow Python's tables on
  that range. *)
Module PyStr.

Definition nl : string := String "010" EmptyString.
Definition dquote : string := String "034" EmptyString.

(** [str.isspace] on one character: TAB..CR, FS..US, space, NEL, NBSP. *)
Definition isspace (c : ascii) : bool :=
  let n := N_of_ascii c in
  (((9 <=? n) && (n <=? 13)) || ((28 <=? n) && (n <=? 32))
   || (n =? 133) || (n =? 160))%N.

(** [str.lower] on one character: A..Z, and the Latin-1 capitals
    U+00C0..U+00DE other than the multiplication sign U+00D7. *)
Definition lower_char (c : ascii) : ascii :=
  let n := N_of_ascii c in
  if (((65 <=? n) && (n <=? 90))
      || ((192 <=? n) && (n <=? 222) && negb (n =? 215)))%N
  then ascii_of_N (n + 32) else c.

Fixpoint lower (s : string) : string :=
  match s with
  | EmptyString => EmptyString
  | String c r => String (lower_char c) (lower r)
  end.

Fixpoint lstrip (s : string) : string :=
  match s with
  | EmptyString => EmptyString
  | String c r => if isspace c then lstrip r else s
  end.

Fixpoint rstrip (s : string) : string :=
  match s with
  | EmptyString => EmptyString
  | String c r =>
      match rstrip r with
      | EmptyString => if isspace c then EmptyString else String c EmptyString
      | r' => String c r'
      end
  end.

(** [s.strip()] *)
Definition strip (s : string) : string := rstrip (lstrip s).

(** [s.startswith(p)] *)
Definition startswith (s p : string) : bool := String.prefix p s.

(** [s.split(sep)] for a one-character separator; the script only
    splits on the newline. *)
Fixpoint split (sep : ascii) (s : string) : list string :=
  match s with
  | EmptyString => [EmptyString]
  | String c r =>
      if Ascii.eqb c sep then EmptyString :: split sep r
      else match split sep r with
           | l :: ls => String c l :: ls
           | [] => [String c EmptyString]
           end
  end.

(** [sep.join(ls)] *)
Definition join (sep : string) (ls : list string) : string :=
  String.concat sep ls.

(** [s[n:]] *)
Fixpoint slice_from (n : nat) (s : string) : string :=
  match n, s with
  | O, _ => s
  | S _, EmptyString => EmptyString
  | S k, String _ r => slice_from k r
  end.

(** Truth value of a string: [bool(s)]. *)
Definition truthy (s : string) : bool :=
  match s with EmptyString => false | _ => true end.

(** A string every character of which is white space (the empty string
    included): exactly the strings that [strip] empties. *)
Fixpoint blank (s : string) : bool :=
  match s with
  | EmptyString => true
  | String c r => isspace c && blank r
  end.

End PyStr.

(** ** SQL extraction (lines 134-153 of [generate_sql_query]) *)
Module Extract.
Import PyStr.

Definition fence : string := "```".

(** [line.strip().startswith('```')] *)
Definition is_fence (line : string) : bool := startswith (strip line) fence.

(** The [for line in lines] loop, with its two mutable variables
    [in_query] and [query_lines] as arguments.  [break] is the branch
    that does not recurse; a line outside a block is skipped. *)
Fixpoint scan (lines : list string) (in_query : bool)
         (query_lines : list string) : list string :=
  match lines with
  | [] => query_lines
  | line :: rest =>
      if is_fence line && negb in_query then scan rest true query_lines
      else if is_fence line && in_query then query_lines
      else if in_query then scan rest in_query (query_lines ++ [line])
      else scan rest in_query query_lines
  end.

(** From [lines = response.split('\n')] to the value of [sql_query]. *)
Definition extract_sql (response : string) : string :=
  let lines := split "010" response in
  let query_lines := scan lines false [] in
  match query_lines with
  | _ :: _ => strip (join nl query_lines)
  | [] => strip (join nl (firstn 5 lines))
  end.

(** *** The reference definition, in the words of the specification

    The lines strictly between the first two fence lines; without two
    fence lines there is no fenced block. *)
Fixpoint until_fence (lines : list string) : option (list string) :=
  match lines with
  | [] => None
  | l :: rest =>
      if is_fence l then Some []
      else option_map (cons l) (until_fence rest)
  end.

Fixpoint after_fence (lines : list string) : option (list string) :=
  match lines with
  | [] => None
  | l :: rest => if is_fence l then Some rest else after_fence rest
  end.

Definition first_block (lines : list string) : option (list string) :=
  match after_fence lines with
  | Some rest => until_fence rest
  | None => None
  end.

Definition extract_sql_spec (response : string) : string :=
  let lines := split "010" response in
  match first_block lines with
  | Some block => strip (join nl block)
  | None => strip (join nl (firstn 5 lines))
  end.

(** *** The reference definition that the loop does compute

    The lines after the first fence line, up to the next fence line or
    to the end of the response; when there are none, the fallback. *)
Fixpoint before_fence (lines : list string) : list string :=
  match lines with
  | [] => []
  | l :: rest => if is_fence l then [] else l :: before_fence rest
  end.

Definition open_block (lines : list string) : list string :=
  match after_fence lines with
  | Some rest => before_fence rest
  | None => []
  end.

Definition extract_sql_ref (response : string) : string :=
  let lines := split "010" response in
  match open_block lines with
  | [] => strip (join nl (firstn 5 lines))
  | block => strip (join nl block)
  end.

End Extract.

(** ** Exceptions, external calls and the script monad *)
Module Effects.

(** The classes of [Exception] the script tells apart; every other
    subclass of [Exception] is an [OtherException]. *)
Inductive exc_class : Type :=
| FileNotFoundError
| ValueError
| EOFError
| OtherException.

(** An instance of [Exception]; [exc_str e] is [str(e)]. *)
Record exception : Type :=
  mk_exception { exc_type : exc_class; exc_str : string }.

(** What a [raise] can propagate: an [Exception], which
    [except Exception] catches, or the [SystemExit] of [sys.exit],
    which it does not. *)
Inductive raised : Type :=
| Exc (e : exception)
| SystemExit (code : Z).

(** The observable actions of the script, in the order they happen. *)
Inductive event : Type :=
| EPrint (text : string)                    (* print(text) *)
| EInput (prompt : string)                  (* input(prompt) *)
| EFromUri (uri schema : string)            (* SQLDatabase.from_uri *)
| EChatAnthropic (api_key : option string)  (* ChatAnthropic(...) *)
| ETableInfo                                (* db.get_table_info() *)
| ERun (sql : string)                       (* db.run(sql) *)
| EUsableTables                             (* db.get_usable_table_names() *)
| EInvoke (prompt : string)                 (* llm.invoke(prompt) *)
| EOpen (path : string).                    (* open(path, 'r').read() *)

(** The external collaborators: the environment, the database client,
    the completion client, standard input and the file system.  The
    environment (as [load_dotenv] leaves it) and the command line are
    fixed for the process; each call may change the outside world and may
    raise an [Exception]. *)
Record Collaborators : Type := {
  World : Type;
  getenv : string -> option string;
  argv : list string;
  from_uri : string -> string -> World -> (exception + unit) * World;
  chat_anthropic : option string -> World -> (exception + unit) * World;
  get_table_info : World -> (exception + string) * World;
  run : string -> World -> (exception + string) * World;
  get_usable_table_names : World -> (exception + list string) * World;
  invoke : string -> World -> (exception + string) * World;
  input : string -> World -> (exception + string) * World;
  open_read : string -> World -> (exception + string) * World
}.

Section Monad.
Context {C : Collaborators}.

(** The outcome of running a piece of the script from some world. *)
Record outcome (A : Type) : Type := mk_outcome {
  result : raised + A;
  world : World C;
  trace : list event
}.
Arguments mk_outcome {A}.
Arguments result {A}.
Arguments world {A}.
Arguments trace {A}.

Definition M (A : Type) : Type := World C -> outcome A.

Definition ret {A} (a : A) : M A :=
  fun w => mk_outcome (inr a) w [].

Definition raise {A} (r : raised) : M A :=
  fun w => mk_outcome (inl r) w [].

Definition bind {A B} (m : M A) (k : A -> M B) : M B :=
  fun w =>
    match m w with
    | mk_outcome (inl r) w1 t1 => mk_outcome (inl r) w1 t1
    | mk_outcome (inr a) w1 t1 =>
        match k a w1 with
        | mk_outcome r w2 t2 => mk_outcome r w2 (t1 ++ t2)
        end
    end.

(** [try: body / except Exception as e: handler e] *)
Definition try_except {A} (body : M A) (handler : exception -> M A) : M A :=
  fun w =>
    match body w with
    | mk_outcome (inl (Exc e)) w1 t1 =>
        match handler e w1 with
        | mk_outcome r w2 t2 => mk_outcome r w2 (t1 ++ t2)
        end
    | o => o
    end.

(** A call to a collaborator, recorded as [ev]. *)
Definition call {A} (ev : event)
           (f : World C -> (exception + A) * World C) : M A :=
  fun w =>
    let (r, w') := f w in
    mk_outcome (match r with inl e => inl (Exc e) | inr a => inr a end)
               w' [ev].

Definition print (text : string) : M unit :=
  fun w => mk_outcome (inr tt) w [EPrint text].

Definition os_getenv (name : string) : M (option string) :=
  fun w => mk_outcome (inr (getenv C name)) w [].

Definition sys_argv : M (list string) :=
  fun w => mk_outcome (inr (argv C)) w [].

End Monad.

Arguments mk_outcome {C A}.
Arguments result {C A}.
Arguments world {C A}.
Arguments trace {C A}.
Arguments M : clear implicits.
Arguments outcome : clear implicits.

Declare Scope script_scope.
Delimit Scope script_scope with script.
Notation "x <- m ;; k" := (bind m (fun x => k))
  (at level 61, m at next level, right associativity) : script_scope.
Notation "m ;; k" := (bind m (fun _ => k))
  (at level 61, right associativity) : script_scope.

End Effects.

(** ** The script *)
Module App.
Import PyStr Extract Effects.
Local Open Scope string_scope.
Local Open Scope script_scope.

(** The module globals read by the functions: [db_schema] (line 12) and
    [schema_info] (line 66).  [db] and [llm] are handles on the outside
    world and need no value of their own. *)
Record Globals : Type := mk_globals {
  db_schema : string;
  schema_info : string
}.

(** The foreign-key query of lines 38-56, an f-string over [db_schema]. *)
Definition fk_query (db_schema : string) : string :=
  join nl
    [ "";
      "        SELECT";
      "            tc.table_schema, ";
      "            tc.constraint_name, ";
      "            tc.table_name, ";
      "            kcu.column_name, ";
      "            ccu.table_schema AS foreign_table_schema,";
      "            ccu.table_name AS foreign_table_name,";
      "            ccu.column_name AS foreign_column_name ";
      "        FROM ";
      "            information_schema.table_constraints AS tc ";
      "            JOIN information_schema.key_column_usage AS kcu";
      "              ON tc.constraint_name = kcu.constraint_name";
      "              AND tc.table_schema = kcu.table_schema";
      "            JOIN information_schema.constraint_column_usage AS ccu";
      "              ON ccu.constraint_name = tc.constraint_name";
      "              AND ccu.table_schema = tc.table_schema";
      "        WHERE tc.constraint_type = 'FOREIGN KEY' AND tc.table_schema = '"
        ++ db_schema ++ "';";
      "        " ].

(** The three prompt templates (lines 70-80, 90-109 and 119-129). *)
Definition answer_prompt (g : Globals) (question : string) : string :=
  join nl
    [ "You are a PostgreSQL database expert. Answer the following question based on the database schema information provided.";
      "";
      "Database schema information:";
      schema_info g;
      "";
      "Question: " ++ question;
      "";
      "If the question requires a SQL query to answer, provide the query.";
      "If you need to reference tables in your query, always include the schema name '"
        ++ db_schema g ++ "'.";
      "Be specific, accurate, and provide exactly what was asked for.";
      "" ].

Definition analyze_prompt (g : Globals) (question : string) : string :=
  join nl
    [ "You are a database design expert specializing in analyzing data models and database schemas.";
      "    ";
      "I'm going to provide you with schema information from a PostgreSQL database, and I'd like you to analyze its design, structure, and relationships.";
      "";
      "Database schema information:";
      schema_info g;
      "";
      "My question or request is: " ++ question;
      "";
      "Please analyze this database schema and provide insights on:";
      "1. The overall purpose and domain of this database";
      "2. The key entities and their relationships";
      "3. The database design patterns being used";
      "4. Any normalization or denormalization approaches";
      "5. Potential strengths and weaknesses in the design";
      "6. Any specific aspects I've asked about in my question";
      "";
      "Format your response in a clear, organized way with headings and bullet points where appropriate.";
      "If you identify any entity-relationship diagrams that would be helpful, describe them in text form.";
      "" ].

Definition sql_prompt (g : Globals) (question : string) : string :=
  join nl
    [ "You are a PostgreSQL expert. Generate a SQL query to answer the user's question.";
      "";
      "Database schema information:";
      schema_info g;
      "";
      "Only use the tables and columns mentioned in the schema.";
      "Always reference tables with the schema name " ++ dquote ++ db_schema g
        ++ dquote ++ " (e.g., " ++ db_schema g ++ ".table_name).";
      "Return the SQL query first, followed by an explanation of what the query does.";
      "";
      "User question: " ++ question;
      "" ].

(** The commands of the interactive loop. *)
Inductive Command : Type :=
| Exit
| Explore
| File
| Query (question : string)
| ModelAnalysis (question : string)
| DirectQuestion (question : string).

(** The tests of the [if]/[elif] chain of lines 243-257, in their order. *)
Definition classify (user_input : string) : Command :=
  if String.eqb (lower user_input) "exit" then Exit
  else if String.eqb (lower user_input) "explore" then Explore
  else if String.eqb (lower user_input) "file" then File
  else if startswith (lower user_input) "query:"
       then Query (strip (slice_from 6 user_input))
  else if startswith (lower user_input) "model:"
       then ModelAnalysis (strip (slice_from 6 user_input))
  else DirectQuestion user_input.

(** The three commands that take no argument, with their keywords. *)
Definition keywords : list (string * Command) :=
  [("exit", Exit); ("explore", Explore); ("file", File)].

(** [len(sys.argv) > 1 and sys.argv[1] == "--file"] *)
Definition file_mode (args : list string) : bool :=
  match args with
  | _ :: a :: _ => String.eqb a "--file"
  | _ => false
  end.

(** [not v], for [v] the value of [os.getenv]: [None] and [''] are false. *)
Definition unset (v : option string) : bool :=
  match v with
  | Some s => negb (truthy s)
  | None => true
  end.

(** [v or default] *)
Definition or_default (v : option string) (default : string) : string :=
  match v with
  | Some s => if truthy s then s else default
  | None => default
  end.

(** The exit status of the interpreter: an uncaught [Exception] gives 1,
    [sys.exit(n)] gives [n], and running off the end of the script 0. *)
Definition exit_code {A} (r : raised + A) : Z :=
  match r with
  | inr _ => 0%Z
  | inl (SystemExit code) => code
  | inl (Exc _) => 1%Z
  end.

Section Script.
Context {C : Collaborators}.

Definition db_get_table_info : M C string :=
  call ETableInfo (get_table_info C).

Definition db_run (sql : string) : M C string :=
  call (ERun sql) (run C sql).

Definition db_get_usable_table_names : M C (list string) :=
  call EUsableTables (get_usable_table_names C).

Definition llm_invoke (prompt : string) : M C string :=
  call (EInvoke prompt) (invoke C prompt).

Definition py_input (prompt : string) : M C string :=
  call (EInput prompt) (input C prompt).

Definition py_open_read (path : string) : M C string :=
  call (EOpen path) (open_read C path).

(** Lines 32-63. *)
Definition get_detailed_schema_info (db_schema : string) : M C string :=
  base_info <- db_get_table_info ;;
  try_except
    (fk_info <- db_run (fk_query db_schema) ;;
     ret (base_info ++ nl ++ nl ++ "Foreign key relationships:" ++ nl
          ++ fk_info))
    (fun e =>
       print ("Warning: Could not fetch foreign key relationships: "
              ++ exc_str e) ;;
       ret base_info).

(** Lines 68-86. *)
Definition answer_question (g : Globals) (question : string) : M C string :=
  content <- llm_invoke (answer_prompt g question) ;;
  let response := strip content in
  print (nl ++ "----- Answer -----") ;;
  print response ;;
  print ("-----------------" ++ nl) ;;
  ret response.

(** Lines 88-115. *)
Definition analyze_database_model (g : Globals) (question : string)
  : M C string :=
  content <- llm_invoke (analyze_prompt g question) ;;
  let response := strip content in
  print (nl ++ "----- Database Model Analysis -----") ;;
  print response ;;
  print ("-----------------------------------" ++ nl) ;;
  ret response.

(** Lines 155-167: run the extracted query and report. *)
Definition run_and_report (response sql_query : string) : M C string :=
  print (nl ++ "Generated SQL: " ++ sql_query ++ nl) ;;
  try_except
    (result <- db_run sql_query ;;
     print ("Result: " ++ result) ;;
     print (nl ++ "Full explanation:") ;;
     print response ;;
     ret result)
    (fun e =>
       print ("Error executing SQL: " ++ exc_str e) ;;
       print (nl ++ "Full response:") ;;
       print response ;;
       ret ("Error: " ++ exc_str e)).

(** Lines 117-167. *)
Definition generate_sql_query (g : Globals) (question : string) : M C string :=
  content <- llm_invoke (sql_prompt g question) ;;
  let response := strip content in
  let sql_query := extract_sql response in
  run_and_report response sql_query.

(** [selected_table in tables] *)
Definition py_in (x : string) (xs : list string) : bool :=
  existsb (String.eqb x) xs.

(** Lines 169-182. *)
Definition explore_db (g : Globals) : M C unit :=
  tables <- db_get_usable_table_names ;;
  print ("Available tables in '" ++ db_schema g ++ "' schema: "
         ++ join ", " tables) ;;
  selected_table <- py_input (nl ++ "Which table would you like to examine? ") ;;
  if py_in selected_table tables then
    let sample_query :=
      "SELECT * FROM " ++ db_schema g ++ "." ++ selected_table ++ " LIMIT 5;" in
    print (nl ++ "Executing: " ++ sample_query) ;;
    result <- db_run sample_query ;;
    print ("Sample data: " ++ result)
  else
    print ("Table not found in the " ++ db_schema g ++ " schema.").

(** Lines 184-194.  The handler of [FileNotFoundError] raises a
    [ValueError]; the one of the other exceptions prints and returns
    [None]. *)
Definition read_markdown_question (filepath : string) : M C (option string) :=
  try_except
    (content <- py_open_read filepath ;;
     ret (Some (strip content)))
    (fun e =>
       match exc_type e with
       | FileNotFoundError =>
           raise (Exc (mk_exception ValueError
                         ("Error: File " ++ filepath ++ " not found.")))
       | _ =>
           print ("Error reading file: " ++ exc_str e) ;;
           ret None
       end).

(** [if question:] for a value that is a string or [None]. *)
Definition nonempty (question : option string) : option string :=
  match question with
  | Some q => if truthy q then Some q else None
  | None => None
  end.

(** Lines 196-213. *)
Definition process_markdown_mode (g : Globals) : M C unit :=
  question <- read_markdown_question "./question.md" ;;
  match nonempty question with
  | Some question =>
      print (nl ++ "Processing question from question.md:" ++ nl
             ++ question ++ nl) ;;
      if startswith (lower question) "query:" then
        generate_sql_query g (strip (slice_from 6 question)) ;; ret tt
      else if startswith (lower question) "model:" then
        analyze_database_model g (strip (slice_from 6 question)) ;; ret tt
      else
        answer_question g question ;; ret tt
  | None => print "No question found in question.md file."
  end.

(** The body of one iteration of the [while True] loop, after the line
    has been read: [true] stands for [break]. *)
Definition dispatch (g : Globals) (cmd : Command) : M C bool :=
  match cmd with
  | Exit => ret true
  | Explore => explore_db g ;; ret false
  | File => process_markdown_mode g ;; ret false
  | Query query => generate_sql_query g query ;; ret false
  | ModelAnalysis model_q => analyze_database_model g model_q ;; ret false
  | DirectQuestion user_input => answer_question g user_input ;; ret false
  end.

(** Lines 240-257.  The loop runs for at most [fuel] iterations; it
    returns [true] when it was left by [break] and [false] when the
    iterations ran out with the loop still going. *)
Fixpoint interactive_loop (g : Globals) (fuel : nat) : M C bool :=
  match fuel with
  | O => ret false
  | S fuel' =>
      user_input <- py_input (nl ++ "Enter your question or command: ") ;;
      stop <- dispatch g (classify user_input) ;;
      if stop then ret true else interactive_loop g fuel'
  end.

(** Lines 8-66: the statements run when the module is loaded, up to the
    assignment of [schema_info]. *)
Definition load : M C Globals :=
  db_uri <- os_getenv "DB_URI" ;;
  db_schema_env <- os_getenv "DB_SCHEMA" ;;
  let db_schema := or_default db_schema_env "catalog" in
  match nonempty db_uri with
  | None =>
      raise (Exc (mk_exception ValueError
        "DB_URI not found in environment variables. Please set it in your .env file."))
  | Some db_uri =>
      call (EFromUri db_uri db_schema) (from_uri C db_uri db_schema) ;;
      api_key <- os_getenv "ANTHROPIC_API_KEY" ;;
      call (EChatAnthropic api_key) (chat_anthropic C api_key) ;;
      schema_info <- get_detailed_schema_info db_schema ;;
      ret (mk_globals db_schema schema_info)
  end.

(** Lines 216-257: the [__main__] block.  The result is [false] only when
    the interactive loop is still going after [fuel] iterations. *)
Definition main (g : Globals) (fuel : nat) : M C bool :=
  api_key <- os_getenv "ANTHROPIC_API_KEY" ;;
  if unset api_key then
    print "ERROR: ANTHROPIC_API_KEY not found in environment variables." ;;
    print "Add to your .env file or set it manually." ;;
    raise (SystemExit 1)
  else
    args <- sys_argv ;;
    if file_mode args then
      process_markdown_mode g ;; ret true
    else
      print ("Database Analyzer - " ++ db_schema g ++ " schema") ;;
      print "---------------------------------------" ;;
      print "Commands:" ;;
      print "  'explore' - Browse tables and see sample data" ;;
      print "  'query: [your question]' - Generate and run a SQL query" ;;
      print "  'model: [your question]' - Analyze database model/design" ;;
      print "  'exit' - Quit the application" ;;
      print "  'file' - Read question from question.md file" ;;
      print "  Any other input - Ask a question about the database" ;;
      print "---------------------------------------" ;;
      interactive_loop g fuel.

(** The whole script, run as [python app.py ...]. *)
Definition script (fuel : nat) : M C bool :=
  g <- load ;;
  main g fuel.

(** The exit status of the process, once it has terminated. *)
Definition exit_status (o : outcome C bool) : option Z :=
  match result o with
  | inr false => None
  | r => Some (exit_code r)
  end.

End Script.
End App.

(** ** A concrete outside world

    Standard input is a list of lines (reading past its end raises
    [EOFError]); the file system holds at most the question file; the
    database and the completion service answer by fixed functions. *)
Module Sim.
Import PyStr Effects.

Record SimWorld : Type := mk_sim {
  sim_stdin : list string;
  sim_question_md : option string;
  sim_table_info : exception + string;
  sim_tables : list string;
  sim_db : string -> exception + string;
  sim_llm : string -> exception + string
}.

Fixpoint lookup (name : string) (env : list (string * string)) : option string :=
  match env with
  | [] => None
  | (k, v) :: rest => if String.eqb k name then Some v else lookup name rest
  end.

Definition sim_input (w : SimWorld) : (exception + string) * SimWorld :=
  match sim_stdin w with
  | [] => (inl (mk_exception EOFError "EOF when reading a line"), w)
  | line :: rest =>
      (inr line,
       mk_sim rest (sim_question_md w) (sim_table_info w) (sim_tables w)
              (sim_db w) (sim_llm w))
  end.

Definition sim_open_read (path : string) (w : SimWorld)
  : (exception + string) * SimWorld :=
  match sim_question_md w with
  | Some content =>
      if String.eqb path "./question.md" then (inr content, w)
      else (inl (mk_exception FileNotFoundError
                   "[Errno 2] No such file or directory"), w)
  | None =>
      (inl (mk_exception FileNotFoundError
              "[Errno 2] No such file or directory"), w)
  end.

Definition sim (env : list (string * string)) (args : list string)
  : Collaborators := {|
  World := SimWorld;
  getenv := fun name => lookup name env;
  argv := args;
  from_uri := fun _ _ w => (inr tt, w);
  chat_anthropic := fun _ w => (inr tt, w);
  get_table_info := fun w => (sim_table_info w, w);
  run := fun sql w => (sim_db w sql, w);
  get_usable_table_names := fun w => (inr (sim_tables w), w);
  invoke := fun prompt w => (sim_llm w prompt, w);
  input := fun _ w => sim_input w;
  open_read := sim_open_read
|}.

(** An environment with both credentials. *)
Definition demo_env : list (string * string) :=
  [("DB_URI", "postgresql://localhost/demo"); ("ANTHROPIC_API_KEY", "sk")].

(** A world with one table, a database that refuses every query but
    [SELECT 1;], and a model that always answers with an unclosed fenced
    block. *)
Definition demo (stdin : list string) (question_md : option string)
  : SimWorld :=
  mk_sim stdin question_md
         (inr "CREATE TABLE catalog.orders (id integer)")
         ["orders"]
         (fun sql => if String.eqb sql "SELECT 1;" then inr "[(1,)]"
                     else inl (mk_exception OtherException "syntax error"))
         (fun _ => inr ("```sql" ++ nl ++ "SELECT 1;" ++ nl))%string.

(** The same world behind a question file that cannot be read. *)
Definition sim_unreadable (env : list (string * string)) (args : list string)
  : Collaborators := {|
  World := SimWorld;
  getenv := fun name => lookup name env;
  argv := args;
  from_uri := fun _ _ w => (inr tt, w);
  chat_anthropic := fun _ w => (inr tt, w);
  get_table_info := fun w => (sim_table_info w, w);
  run := fun sql w => (sim_db w sql, w);
  get_usable_table_names := fun w => (inr (sim_tables w), w);
  invoke := fun prompt w => (sim_llm w prompt, w);
  input := fun _ w => sim_input w;
  open_read := fun _ w =>
    (inl (mk_exception OtherException "[Errno 13] Permission denied"), w)
|}.

(** A world whose completion service is out of reach. *)
Definition offline (stdin : list string) (question_md : option string)
  : SimWorld :=
  mk_sim stdin question_md
         (inr "CREATE TABLE catalog.orders (id integer)")
         ["orders"]
         (fun _ => inr "[]")
         (fun _ => inl (mk_exception OtherException "Connection error.")).

(** The interactive script with both credentials, and globals as a load
    could leave them. *)
Definition interactive : Collaborators := sim demo_env ["app.py"].

Definition demo_globals : App.Globals :=
  App.mk_globals "catalog" "CREATE TABLE catalog.orders (id integer)".

(** A piece of script that leaves no more lines on standard input than
    it found. *)
Definition shrinks {env args A} (m : M (sim env args) A) : Prop :=
  forall w : SimWorld,
    length (sim_stdin (world (m w))) <= length (sim_stdin w).

End Sim.

(** ** What a run shows of the schema text *)
Module Observed.
Import Effects App.

Definition is_table_info (e : event) : bool :=
  match e with ETableInfo => true | _ => false end.

(** How many times a trace fetches the table information, the first
    step of the assembly of the schema text. *)
Definition fetches (t : list event) : nat :=
  length (filter is_table_info t).

(** A prompt made by one of the three templates from the globals [g]. *)
Definition built_from (g : Globals) (prompt : string) : Prop :=
  exists question : string,
    prompt = answer_prompt g question
    \/ prompt = analyze_prompt g question
    \/ prompt = sql_prompt g question.

(** An event of a run that uses the schema text of [g] and does not
    fetch it again. *)
Definition reuses (g : Globals) (e : event) : Prop :=
  match e with
  | ETableInfo => False
  | EInvoke prompt => built_from g prompt
  | _ => True
  end.

(** Every event of a piece of script, from any world, satisfies [P]. *)
Definition traces {C : Collaborators} (P : event -> Prop) {A} (m : M C A)
  : Prop :=
  forall w, Forall P (trace (m w)).

(** An event that precedes any use of the schema text. *)
Definition no_prompt (e : event) : Prop :=
  match e with
  | EInvoke _ => False
  | _ => True
  end.

(** An event other than a read of standard input. *)
Definition no_input (e : event) : Prop :=
  match e with
  | EInput _ => False
  | _ => True
  end.

(** The variant of a command, its question left out. *)
Inductive Kind : Type :=
| KExit
| KExplore
| KFile
| KQuery
| KModelAnalysis
| KDirectQuestion.

Definition command_kind (cmd : Command) : Kind :=
  match cmd with
  | Exit => KExit
  | Explore => KExplore
  | File => KFile
  | Query _ => KQuery
  | ModelAnalysis _ => KModelAnalysis
  | DirectQuestion _ => KDirectQuestion
  end.

(** The only query [explore_db] may run: the sample of a table that the
    database listed; it fetches no schema and sends no prompt. *)
Definition sample_of (g : Globals) (tables : list string) (e : event) : Prop :=
  match e with
  | ERun sql =>
      exists table : string,
        In table tables
        /\ sql = ("SELECT * FROM " ++ db_schema g ++ "." ++ table
                  ++ " LIMIT 5;")%string
  | ETableInfo => False
  | EInvoke _ => False
  | _ => True
  end.

End Observed.

(** * Properties *)

(** ** Facts about the string operations *)
Module PyStrFacts.
Import PyStr.
Local Open Scope string_scope.

Lemma newline_isspace : isspace "010" = true.
Proof. reflexivity. Qed.

Lemma rstrip_blank (s : string) : blank s = true -> rstrip s = "".
Proof.
  induction s as [|c r IH]; simpl; intro H; [reflexivity|].
  apply andb_true_iff in H as [Hc Hr].
  rewrite (IH Hr), Hc. reflexivity.
Qed.

Lemma rstrip_not_blank (s : string) : blank s = false -> rstrip s <> "".
Proof.
  induction s as [|c r IH]; simpl; intro H; [discriminate|].
  destruct (rstrip r) eqn:E.
  - destruct (isspace c) eqn:Hc; [|discriminate].
    simpl in H. destruct (blank r) eqn:Hr; [discriminate|].
    exfalso. now apply IH.
  - discriminate.
Qed.

Lemma rstrip_head (c : ascii) (r : string) :
  isspace c = false -> exists r', rstrip (String c r) = String c r'.
Proof.
  intro Hc. simpl. destruct (rstrip r); rewrite ?Hc; eauto.
Qed.

Lemma blank_lstrip (s : string) : blank (lstrip s) = blank s.
Proof.
  induction s as [|c r IH]; simpl; [reflexivity|].
  destruct (isspace c) eqn:Hc; simpl; [exact IH|].
  now rewrite Hc.
Qed.

Lemma lstrip_head (s : string) (c : ascii) (r : string) :
  lstrip s = String c r -> isspace c = false.
Proof.
  induction s as [|d t IH]; simpl; [discriminate|].
  destruct (isspace d) eqn:Hd; [exact IH|].
  intro H. injection H as -> _. exact Hd.
Qed.

(** [strip] empties exactly the blank strings. *)
Lemma strip_empty_iff (s : string) : strip s = "" <-> blank s = true.
Proof.
  unfold strip. split; intro H.
  - destruct (blank s) eqn:B; [reflexivity|].
    exfalso. apply (rstrip_not_blank (lstrip s)); [|exact H].
    now rewrite blank_lstrip.
  - apply rstrip_blank. now rewrite blank_lstrip.
Qed.

(** A stripped string does not start with white space. *)
Lemma strip_head (s : string) (c : ascii) (r : string) :
  strip s = String c r -> isspace c = false.
Proof.
  unfold strip. destruct (lstrip s) as [|d t] eqn:E; simpl; [discriminate|].
  pose proof (lstrip_head _ _ _ E) as Hd.
  destruct (rstrip_head d t Hd) as [r' Hr']. simpl in Hr'. rewrite Hr'.
  intro H. injection H as <- _. exact Hd.
Qed.

Lemma blank_append (a b : string) : blank (a ++ b) = blank a && blank b.
Proof.
  induction a as [|c r IH]; simpl; [reflexivity|].
  now rewrite IH, andb_assoc.
Qed.

Lemma join_cons (sep x : string) (y : string) (ys : list string) :
  join sep (x :: y :: ys) = x ++ sep ++ join sep (y :: ys).
Proof. reflexivity. Qed.

(** Lines joined by newlines are blank exactly when each line is. *)
Lemma blank_join (ls : list string) : blank (join nl ls) = forallb blank ls.
Proof.
  induction ls as [|x xs IH]; [reflexivity|].
  destruct xs as [|y ys].
  - simpl. now rewrite andb_true_r.
  - rewrite join_cons, !blank_append, IH. reflexivity.
Qed.

Lemma split_not_nil (sep : ascii) (s : string) : split sep s <> [].
Proof.
  destruct s as [|c r]; simpl; [discriminate|].
  destruct (Ascii.eqb c sep); [discriminate|].
  destruct (split sep r); discriminate.
Qed.

Lemma split_head (sep c : ascii) (r : string) :
  Ascii.eqb c sep = false ->
  exists l ls, split sep (String c r) = String c l :: ls.
Proof.
  intro H. simpl. rewrite H. destruct (split sep r); eauto.
Qed.

(** Joining what [split] produced gives the string back. *)
Lemma join_split (s : string) : join nl (split "010" s) = s.
Proof.
  induction s as [|c r IH]; [reflexivity|].
  simpl split. destruct (Ascii.eqb c "010") eqn:E.
  - apply Ascii.eqb_eq in E. subst c.
    pose proof (split_not_nil "010" r) as N.
    destruct (split "010" r) as [|y ys]; [easy|].
    rewrite join_cons, IH. reflexivity.
  - pose proof (split_not_nil "010" r) as N.
    destruct (split "010" r) as [|y ys]; [easy|].
    destruct ys as [|z zs].
    + simpl in *. now rewrite IH.
    + rewrite join_cons in IH. rewrite join_cons.
      change (String c (y ++ nl ++ join nl (z :: zs)) = String c r).
      now rewrite IH.
Qed.

End PyStrFacts.

(** ** The extraction loop against its reference definitions *)
Module ExtractFacts.
Import PyStr Extract PyStrFacts.
Local Open Scope string_scope.

(** Inside a block the loop appends the lines before the next fence. *)
Lemma scan_in_query (lines acc : list string) :
  scan lines true acc = (acc ++ before_fence lines)%list.
Proof.
  revert acc. induction lines as [|line rest IH]; intro acc; simpl.
  - now rewrite app_nil_r.
  - destruct (is_fence line); simpl.
    + now rewrite app_nil_r.
    + rewrite IH, <- app_assoc. reflexivity.
Qed.

(** From its initial state the loop computes [open_block]. *)
Lemma scan_open_block (lines : list string) :
  scan lines false [] = open_block lines.
Proof.
  unfold open_block. induction lines as [|line rest IH]; simpl; [reflexivity|].
  destruct (is_fence line); simpl.
  - now rewrite scan_in_query.
  - exact IH.
Qed.

Lemma before_fence_no_fence (lines : list string) :
  forallb (fun l => negb (is_fence l)) lines = true ->
  before_fence lines = lines.
Proof.
  induction lines as [|l rest IH]; simpl; [reflexivity|].
  intro H. apply andb_true_iff in H as [Hl Hr].
  apply negb_true_iff in Hl. rewrite Hl, (IH Hr). reflexivity.
Qed.

Lemma after_fence_no_fence (lines : list string) :
  forallb (fun l => negb (is_fence l)) lines = true ->
  after_fence lines = None.
Proof.
  induction lines as [|l rest IH]; simpl; [reflexivity|].
  intro H. apply andb_true_iff in H as [Hl Hr].
  apply negb_true_iff in Hl. rewrite Hl. exact (IH Hr).
Qed.

Lemma after_fence_first (pre post : list string) (marker : string) :
  forallb (fun l => negb (is_fence l)) pre = true ->
  is_fence marker = true ->
  after_fence (pre ++ marker :: post) = Some post.
Proof.
  intros Hpre Hm. induction pre as [|l rest IH]; simpl.
  - now rewrite Hm.
  - simpl in Hpre. apply andb_true_iff in Hpre as [Hl Hr].
    apply negb_true_iff in Hl. rewrite Hl. exact (IH Hr).
Qed.

(** A closed block is what the loop collects. *)
Lemma until_fence_before_fence (lines block : list string) :
  until_fence lines = Some block -> before_fence lines = block.
Proof.
  revert block. induction lines as [|l rest IH]; intro block; simpl.
  - discriminate.
  - destruct (is_fence l).
    + now intros [= <-].
    + destruct (until_fence rest) as [b|]; simpl; [|discriminate].
      intros [= <-]. now rewrite (IH b).
Qed.

(** Where the response has a closed, non-empty first block, or no fence
    line at all, the loop and the specification's reference agree. *)
Lemma extract_sql_spec_agrees (response : string) :
  match first_block (split "010" response) with
  | Some [] => True
  | Some (_ :: _) => extract_sql response = extract_sql_spec response
  | None =>
      after_fence (split "010" response) = None ->
      extract_sql response = extract_sql_spec response
  end.
Proof.
  unfold extract_sql, extract_sql_spec.
  rewrite scan_open_block. unfold open_block, first_block.
  destruct (after_fence (split "010" response)) as [rest|] eqn:A.
  - destruct (until_fence rest) as [[|b bs]|] eqn:U; [exact I| |discriminate].
    now rewrite (until_fence_before_fence _ _ U).
  - reflexivity.
Qed.

Lemma firstn_short {A} (n : nat) (l : list A) : length l <= n -> firstn n l = l.
Proof. intro H. now apply firstn_all2. Qed.

End ExtractFacts.

Import PyStr Extract PyStrFacts ExtractFacts.
Local Open Scope string_scope.

(** C1, as stated, fails: the response of the specification's example has
    its fence markers inside a line, so it comes back whole; and a
    non-empty trimmed response with an empty line between two fences
    yields the empty string. *)
Lemma extract_sql_example_and_nonempty_fail :
  extract_sql "Sure! ```SELECT 1;```" <> "SELECT 1;"
  /\ (let response := "```" ++ nl ++ nl ++ "```" in
      strip response = response /\ response <> ""
      /\ extract_sql response = "").
Proof.
  split; [vm_compute; discriminate|].
  repeat split; vm_compute; discriminate.
Qed.

(** C1 (amended): extraction is a total function; on the example
    response it returns the response unchanged; and for a trimmed,
    non-empty response the result is empty exactly when the loop
    collected at least one line and every collected line is blank. *)
Theorem extract_sql_empty_iff_blank_block :
  extract_sql "Sure! ```SELECT 1;```" = "Sure! ```SELECT 1;```"
  /\ forall content : string,
      strip content <> "" ->
      let query_lines := open_block (split "010" (strip content)) in
      (extract_sql (strip content) = ""
       <-> query_lines <> [] /\ forallb blank query_lines = true).
Proof.
  split; [reflexivity|].
  intros content Hne query_lines.
  unfold extract_sql. rewrite scan_open_block. fold query_lines.
  destruct query_lines as [|q qs] eqn:Q.
  - split; [|intros [H _]; now contradiction H].
    intro H. exfalso. apply strip_empty_iff in H. rewrite blank_join in H.
    destruct (strip content) as [|c r] eqn:S; [now apply Hne|].
    pose proof (strip_head _ _ _ S) as Hc.
    assert (N : Ascii.eqb c "010" = false).
    { apply Ascii.eqb_neq. intros ->. discriminate Hc. }
    destruct (split_head "010" c r N) as (l & ls & E).
    rewrite E in H. simpl in H. rewrite Hc in H. discriminate H.
  - rewrite strip_empty_iff, blank_join. split.
    + intro H. split; [discriminate|exact H].
    + now intros [_ H].
Qed.

Lemma extract_sql_empty_iff_blank_block_witness :
  extract_sql (strip "  SELECT 1;  ") <> "".
Proof.
  destruct extract_sql_empty_iff_blank_block as [_ H].
  intro E. apply (H "  SELECT 1;  ") in E.
  - destruct E as [E _]. apply E. reflexivity.
  - vm_compute. discriminate.
Defined.

(** C3, as stated, fails on an unclosed fence (the specification's
    reference falls back to the first five lines, the loop returns the
    lines after the marker) and on an empty block (the reference returns
    the empty block, the loop falls back). *)
Lemma extract_sql_differs_from_spec_reference :
  extract_sql ("```" ++ nl ++ "SELECT 1;")
    <> extract_sql_spec ("```" ++ nl ++ "SELECT 1;")
  /\ extract_sql ("```" ++ nl ++ "```" ++ nl ++ "x")
    <> extract_sql_spec ("```" ++ nl ++ "```" ++ nl ++ "x").
Proof. split; vm_compute; discriminate. Qed.

(** C3 (amended): the extracted SQL is the trimmed join of the lines
    after the first fence line up to the next fence line, or up to the end
    of the response when there is no next fence line, provided there is
    such a line; otherwise it is the trimmed join of the first five lines.
    For a response without fence line and of at most five lines that is
    the whole response, trimmed. *)
Theorem extract_sql_refines_reference :
  (forall response : string, extract_sql response = extract_sql_ref response)
  /\ (forall response : string,
        forallb (fun l => negb (is_fence l)) (split "010" response) = true ->
        length (split "010" response) <= 5 ->
        extract_sql response = strip response).
Proof.
  split.
  - intro response. unfold extract_sql, extract_sql_ref.
    rewrite scan_open_block.
    destruct (open_block (split "010" response)); reflexivity.
  - intros response Hno Hlen. unfold extract_sql.
    rewrite scan_open_block. unfold open_block.
    rewrite (after_fence_no_fence _ Hno), (firstn_short _ _ Hlen), join_split.
    reflexivity.
Qed.

Lemma extract_sql_refines_reference_witness :
  extract_sql ("SELECT 1;" ++ nl ++ "It returns one.  ")
  = "SELECT 1;" ++ nl ++ "It returns one.".
Proof.
  destruct extract_sql_refines_reference as [_ H].
  rewrite H; [reflexivity|reflexivity|vm_compute; lia].
Defined.

(** C10: when exactly one line of the response is a fence line and some
    line follows it, the extracted SQL is the trimmed join of all the
    lines after that fence line. *)
Theorem extract_sql_unclosed_fence
  (response marker : string) (before after : list string) :
  split "010" response = (before ++ marker :: after)%list ->
  is_fence marker = true ->
  forallb (fun l => negb (is_fence l)) (before ++ after)%list = true ->
  after <> [] ->
  extract_sql response = strip (join nl after).
Proof.
  intros Hsplit Hm Hno Hafter.
  rewrite forallb_app in Hno. apply andb_true_iff in Hno as [Hb Ha].
  unfold extract_sql. rewrite scan_open_block, Hsplit. unfold open_block.
  rewrite (after_fence_first _ _ _ Hb Hm), (before_fence_no_fence _ Ha).
  destruct after; [now contradiction Hafter|reflexivity].
Qed.

Lemma extract_sql_unclosed_fence_witness :
  extract_sql ("Here it is:" ++ nl ++ "```sql" ++ nl ++ "SELECT 1;" ++ nl
               ++ "SELECT 2;")
  = "SELECT 1;" ++ nl ++ "SELECT 2;".
Proof.
  rewrite (extract_sql_unclosed_fence _ "```sql" ["Here it is:"]
             ["SELECT 1;"; "SELECT 2;"]).
  - reflexivity.
  - reflexivity.
  - reflexivity.
  - reflexivity.
  - discriminate.
Defined.

(** ** Command classification *)
Import App.

(** C4, as stated, fails: a line that merely begins with a keyword is a
    direct question. *)
Lemma classify_keyword_prefix_is_question :
  (startswith (lower "explorer") "explore" = true
   /\ classify "explorer" <> Explore)
  /\ (startswith (lower "Exit now") "exit" = true
      /\ classify "Exit now" <> Exit)
  /\ (startswith (lower "file please") "file" = true
      /\ classify "file please" <> File).
Proof.
  split; [|split]; (split; [reflexivity|vm_compute; discriminate]).
Qed.

(** A string with a given prefix is that prefix followed by a rest. *)
Lemma startswith_split (s p : string) :
  startswith s p = true -> exists rest : string, s = p ++ rest.
Proof.
  unfold startswith. revert s.
  induction p as [|a p IH]; intros s H; [exists s; reflexivity|].
  destruct s as [|b s]; simpl in H; [discriminate|].
  destruct (ascii_dec a b) as [->|]; [|discriminate].
  destruct (IH s H) as [rest ->]. exists rest. reflexivity.
Qed.

(** C4 (amended): the keywords [exit], [explore] and [file] are
    recognised by a case-insensitive exact match: a line is classified as
    one of these commands exactly when its lowercased form equals the
    keyword, and a line that begins with the keyword and goes on is a
    direct question, taken whole. *)
Theorem classify_keyword_exact
  (user_input keyword : string) (cmd : Command) :
  In (keyword, cmd) keywords ->
  (classify user_input = cmd <-> lower user_input = keyword)
  /\ (startswith (lower user_input) keyword = true ->
      lower user_input <> keyword ->
      classify user_input = DirectQuestion user_input).
Proof.
  intro Hin. simpl in Hin. split; [split|].
  - unfold classify.
    destruct (String.eqb (lower user_input) "exit") eqn:E1;
      [apply String.eqb_eq in E1|];
      [|destruct (String.eqb (lower user_input) "explore") eqn:E2;
        [apply String.eqb_eq in E2|]];
      [| |destruct (String.eqb (lower user_input) "file") eqn:E3;
          [apply String.eqb_eq in E3|]].
    + destruct Hin as [[= <- <-]|[[= <- <-]|[[= <- <-]|[]]]];
        intro H; (exact E1 || discriminate H).
    + destruct Hin as [[= <- <-]|[[= <- <-]|[[= <- <-]|[]]]];
        intro H; (exact E2 || discriminate H).
    + destruct Hin as [[= <- <-]|[[= <- <-]|[[= <- <-]|[]]]];
        intro H; (exact E3 || discriminate H).
    + destruct Hin as [[= <- <-]|[[= <- <-]|[[= <- <-]|[]]]];
        intro H; exfalso;
        destruct (startswith (lower user_input) "query:");
        try discriminate H;
        destruct (startswith (lower user_input) "model:");
        discriminate H.
  - intro Hlow. unfold classify. rewrite Hlow.
    destruct Hin as [[= <- <-]|[[= <- <-]|[[= <- <-]|[]]]]; reflexivity.
  - intros Hpre Hne. apply startswith_split in Hpre as [rest Hrest].
    assert (Hrest' : rest <> "").
    { intros ->. apply Hne. rewrite Hrest.
      destruct Hin as [[= <- <-]|[[= <- <-]|[[= <- <-]|[]]]]; reflexivity. }
    unfold classify, startswith. rewrite Hrest.
    destruct rest as [|c rest]; [now contradiction Hrest'|].
    destruct Hin as [[= <- <-]|[[= <- <-]|[[= <- <-]|[]]]]; reflexivity.
Qed.

Lemma classify_keyword_exact_witness :
  (classify "EXPLORE" = Explore /\ classify "Exit" = Exit
   /\ classify "fiLe" = File)
  /\ classify "Explorer" = DirectQuestion "Explorer".
Proof.
  split; [split; [|split]|].
  - apply (classify_keyword_exact "EXPLORE" "explore"); simpl; auto.
  - apply (classify_keyword_exact "Exit" "exit"); simpl; auto.
  - apply (classify_keyword_exact "fiLe" "file"); simpl; auto.
  - apply (classify_keyword_exact "Explorer" "explore" Explore).
    + simpl. auto.
    + reflexivity.
    + discriminate.
Defined.

(** C9: the two examples of the specification. *)
Theorem classify_examples :
  classify "QUERY: show all users" = Query "show all users"
  /\ classify "random text" = DirectQuestion "random text".
Proof. split; reflexivity. Qed.

(** ** The effectful functions *)
Import Effects Observed.

Section ScriptFacts.
Context {C : Collaborators}.

(** C5: once the base table information is fetched, a failure of the
    foreign-key query is reported as a warning and the base information
    is returned alone, no exception escaping; when the query succeeds
    the result is the base information, the section header and the
    listing. *)
Theorem get_detailed_schema_info_degrades
  (db_schema base_info : string) (w w1 w2 : World C)
  (fk : exception + string) :
  get_table_info C w = (inr base_info, w1) ->
  run C (fk_query db_schema) w1 = (fk, w2) ->
  get_detailed_schema_info db_schema w =
  match fk with
  | inl e =>
      mk_outcome (inr base_info) w2
        [ETableInfo; ERun (fk_query db_schema);
         EPrint ("Warning: Could not fetch foreign key relationships: "
                 ++ exc_str e)]
  | inr fk_info =>
      mk_outcome
        (inr (base_info ++ nl ++ nl ++ "Foreign key relationships:" ++ nl
              ++ fk_info))
        w2 [ETableInfo; ERun (fk_query db_schema)]
  end.
Proof.
  intros Hbase Hfk.
  unfold get_detailed_schema_info, try_except, bind, db_get_table_info,
    db_run, call, print, ret.
  rewrite Hbase. cbv beta iota zeta delta [result world trace].
  rewrite Hfk. destruct fk; reflexivity.
Qed.

(** C6: whatever the extracted SQL is, a failure of its execution is
    caught: the error text and the model's response are printed and the
    string ["Error: " ++ str(e)] is returned; on success the result is
    printed, followed by the response, and returned. *)
Theorem generate_sql_query_reports
  (g : Globals) (question content : string) (w w1 w2 : World C)
  (outcome_of_run : exception + string) :
  invoke C (sql_prompt g question) w = (inr content, w1) ->
  run C (extract_sql (strip content)) w1 = (outcome_of_run, w2) ->
  let response := strip content in
  let sql_query := extract_sql response in
  generate_sql_query g question w =
  match outcome_of_run with
  | inl e =>
      mk_outcome (inr ("Error: " ++ exc_str e)) w2
        [EInvoke (sql_prompt g question);
         EPrint (nl ++ "Generated SQL: " ++ sql_query ++ nl);
         ERun sql_query;
         EPrint ("Error executing SQL: " ++ exc_str e);
         EPrint (nl ++ "Full response:");
         EPrint response]
  | inr result =>
      mk_outcome (inr result) w2
        [EInvoke (sql_prompt g question);
         EPrint (nl ++ "Generated SQL: " ++ sql_query ++ nl);
         ERun sql_query;
         EPrint ("Result: " ++ result);
         EPrint (nl ++ "Full explanation:");
         EPrint response]
  end.
Proof.
  intros Hllm Hrun response sql_query.
  unfold generate_sql_query, run_and_report, try_except, bind, llm_invoke,
    db_run, call, print, ret.
  rewrite Hllm. cbv beta iota zeta delta [result world trace].
  rewrite Hrun. destruct outcome_of_run; reflexivity.
Qed.

(** C2 (amended): when the question file does not exist, the
    [FileNotFoundError] is turned into a [ValueError] that nothing
    catches: it leaves [process_markdown_mode] and, in interactive mode,
    the command loop, which reads no further line. *)
Theorem missing_question_file_escapes
  (g : Globals) (w w1 : World C) (e : exception) :
  open_read C "./question.md" w = (inl e, w1) ->
  exc_type e = FileNotFoundError ->
  let err :=
    Exc (mk_exception ValueError "Error: File ./question.md not found.") in
  process_markdown_mode g w = mk_outcome (inl err) w1 [EOpen "./question.md"]
  /\ forall (fuel : nat) (w0 : World C) (line : string),
      input C (nl ++ "Enter your question or command: ") w0 = (inr line, w) ->
      classify line = File ->
      interactive_loop g (S fuel) w0 =
      mk_outcome (inl err) w1
        [EInput (nl ++ "Enter your question or command: ");
         EOpen "./question.md"].
Proof.
  intros Hopen Hclass err.
  assert (P : process_markdown_mode g w
              = mk_outcome (inl err) w1 [EOpen "./question.md"]).
  { unfold process_markdown_mode, read_markdown_question, try_except, bind,
      py_open_read, call, raise.
    rewrite Hopen. cbv beta iota zeta delta [result world trace].
    rewrite Hclass. reflexivity. }
  split; [exact P|].
  intros fuel w0 line Hin Hcmd.
  unfold interactive_loop, bind, py_input, call.
  rewrite Hin. cbv beta iota zeta delta [result world trace].
  rewrite Hcmd. unfold dispatch, bind.
  rewrite P. reflexivity.
Qed.

(** X16: a failure to read the question file other than a missing file
    is printed, and that dispatch alone is abandoned. *)
Lemma unreadable_question_file_is_reported
  (g : Globals) (w w1 : World C) (e : exception) :
  open_read C "./question.md" w = (inl e, w1) ->
  exc_type e <> FileNotFoundError ->
  process_markdown_mode g w =
  mk_outcome (inr tt) w1
    [EOpen "./question.md"; EPrint ("Error reading file: " ++ exc_str e);
     EPrint "No question found in question.md file."].
Proof.
  intros Hopen Hclass.
  unfold process_markdown_mode, read_markdown_question, try_except, bind,
    py_open_read, call, raise, print, ret.
  rewrite Hopen. cbv beta iota zeta delta [result world trace].
  destruct (exc_type e); try reflexivity. now contradiction Hclass.
Qed.

(** C8: without [DB_URI], or without [ANTHROPIC_API_KEY], the process
    ends with exit status 1; without [DB_URI] it does so before any
    call to the database or to the completion service. *)
Theorem missing_credential_exits_with_1 (fuel : nat) (w : World C) :
  getenv C "DB_URI" = None \/ getenv C "ANTHROPIC_API_KEY" = None ->
  exit_status (script fuel w) = Some 1%Z
  /\ (getenv C "DB_URI" = None -> trace (script fuel w) = []).
Proof.
  intro H. split.
  - unfold script, load, bind, os_getenv.
    cbv beta iota zeta delta [result world trace].
    destruct (nonempty (getenv C "DB_URI")) as [db_uri|] eqn:U;
      [|reflexivity].
    destruct H as [H|H]; [rewrite H in U; discriminate U|].
    unfold call, get_detailed_schema_info, try_except, bind,
      db_get_table_info, db_run, call, print, ret, raise.
    destruct (from_uri C db_uri _ w) as [[e1|[]] w1];
      cbv beta iota zeta delta [result world trace]; [reflexivity|].
    destruct (chat_anthropic C _ w1) as [[e2|[]] w2];
      cbv beta iota zeta delta [result world trace]; [reflexivity|].
    destruct (get_table_info C w2) as [[e3|base_info] w3];
      cbv beta iota zeta delta [result world trace]; [reflexivity|].
    destruct (run C _ w3) as [[e4|fk_info] w4];
      cbv beta iota zeta delta [result world trace];
      unfold main, bind, os_getenv, print, raise;
      cbv beta iota zeta delta [result world trace];
      rewrite H; reflexivity.
  - intro U. unfold script, load, bind, os_getenv.
    cbv beta iota zeta delta [result world trace]. rewrite U. reflexivity.
Qed.

(** *** Predicates on the events of a piece of script *)

Lemma traces_ret P {A} (a : A) : traces (C := C) P (ret a).
Proof. intro w. constructor. Qed.

Lemma traces_raise P {A} (r : raised) :
  traces (C := C) P (raise (A := A) r).
Proof. intro w. constructor. Qed.

Lemma traces_print (P : event -> Prop) (text : string) :
  P (EPrint text) -> traces (C := C) P (print text).
Proof. intros H w. repeat constructor. exact H. Qed.

Lemma traces_getenv P (name : string) :
  traces (C := C) P (os_getenv name).
Proof. intro w. constructor. Qed.

Lemma traces_argv P : traces (C := C) P sys_argv.
Proof. intro w. constructor. Qed.

Lemma traces_call (P : event -> Prop) {A} (ev : event)
      (f : World C -> (exception + A) * World C) :
  P ev -> traces P (call ev f).
Proof.
  intros H w. unfold call. destruct (f w) as [r w']. repeat constructor.
  exact H.
Qed.

Lemma traces_bind P {A B} (m : M C A) (k : A -> M C B) :
  traces P m -> (forall a, traces P (k a)) -> traces P (bind m k).
Proof.
  intros Hm Hk w. unfold bind. specialize (Hm w).
  destruct (m w) as [[r|a] w1 t1]; simpl in *; [exact Hm|].
  specialize (Hk a w1). destruct (k a w1) as [r w2 t2]; simpl in *.
  apply Forall_app. split; assumption.
Qed.

Lemma traces_try_except P {A} (body : M C A) (handler : exception -> M C A) :
  traces P body -> (forall e, traces P (handler e)) ->
  traces P (try_except body handler).
Proof.
  intros Hb Hh w. unfold try_except. specialize (Hb w).
  destruct (body w) as [[[e|code]|a] w1 t1]; simpl in *; try exact Hb.
  specialize (Hh e w1). destruct (handler e w1) as [r w2 t2]; simpl in *.
  apply Forall_app. split; assumption.
Qed.

Ltac trace_step :=
  lazymatch goal with
  | |- traces _ (bind _ _) => apply traces_bind; [|intro]
  | |- traces _ (try_except _ _) => apply traces_try_except; [|intro]
  | |- traces _ (ret _) => apply traces_ret
  | |- traces _ (raise _) => apply traces_raise
  | |- traces _ (print _) => apply traces_print; exact I
  | |- traces _ (os_getenv _) => apply traces_getenv
  | |- traces _ sys_argv => apply traces_argv
  | |- traces _ (call _ _) => apply traces_call
  | |- traces _ (if ?b then _ else _) => destruct b
  | |- traces _ (match ?x with _ => _ end) => destruct x
  end.

Lemma reuses_answer_question g question :
  traces (C := C) (reuses g) (answer_question g question).
Proof.
  unfold answer_question, llm_invoke. repeat trace_step.
  exists question. auto.
Qed.

Lemma reuses_analyze_database_model g question :
  traces (C := C) (reuses g) (analyze_database_model g question).
Proof.
  unfold analyze_database_model, llm_invoke. repeat trace_step.
  exists question. auto.
Qed.

Lemma reuses_generate_sql_query g question :
  traces (C := C) (reuses g) (generate_sql_query g question).
Proof.
  unfold generate_sql_query, run_and_report, llm_invoke, db_run.
  repeat trace_step; try exact I.
  exists question. auto.
Qed.

Lemma reuses_explore_db g : traces (C := C) (reuses g) (explore_db g).
Proof.
  unfold explore_db, db_get_usable_table_names, py_input, db_run.
  repeat trace_step; exact I.
Qed.

Lemma reuses_process_markdown_mode g :
  traces (C := C) (reuses g) (process_markdown_mode g).
Proof.
  unfold process_markdown_mode, read_markdown_question, py_open_read.
  repeat trace_step;
    auto using reuses_generate_sql_query, reuses_analyze_database_model,
      reuses_answer_question;
    exact I.
Qed.

Lemma reuses_dispatch g cmd : traces (C := C) (reuses g) (dispatch g cmd).
Proof.
  destruct cmd; simpl; repeat trace_step;
    auto using reuses_generate_sql_query, reuses_analyze_database_model,
      reuses_answer_question, reuses_explore_db, reuses_process_markdown_mode.
Qed.

Lemma reuses_interactive_loop g fuel :
  traces (C := C) (reuses g) (interactive_loop g fuel).
Proof.
  induction fuel as [|fuel IH]; simpl; [apply traces_ret|].
  unfold py_input. repeat trace_step; auto using reuses_dispatch. exact I.
Qed.

Lemma reuses_main g fuel : traces (C := C) (reuses g) (main g fuel).
Proof.
  unfold main. repeat trace_step;
    auto using reuses_process_markdown_mode, reuses_interactive_loop.
Qed.

Lemma no_prompt_load : traces (C := C) no_prompt load.
Proof.
  unfold load, get_detailed_schema_info, db_get_table_info, db_run.
  repeat trace_step; exact I.
Qed.

Lemma fetches_app (t u : list event) :
  fetches (t ++ u) = fetches t + fetches u.
Proof. unfold fetches. now rewrite filter_app, length_app. Qed.

Lemma fetches_reuses g (t : list event) :
  Forall (reuses g) t -> fetches t = 0.
Proof.
  induction 1 as [|e t He _ IH]; [reflexivity|].
  change (fetches ([e] ++ t) = 0). rewrite fetches_app, IH.
  destruct e; try reflexivity. destruct He.
Qed.

(** The module is loaded with at most one fetch of the table
    information. *)
Lemma fetches_load (w : World C) : fetches (trace (load w)) <= 1.
Proof.
  assert (Hfk : forall db_schema (w' : World C),
             fetches (trace (get_detailed_schema_info db_schema w')) <= 1).
  { intros db_schema w'.
    unfold get_detailed_schema_info, try_except, bind, db_get_table_info,
      db_run, call, print, ret.
    destruct (get_table_info C w') as [[e|base_info] w1];
      cbv beta iota zeta delta [result world trace]; [cbv; lia|].
    destruct (run C _ w1) as [[e|fk_info] w2]; cbv; lia. }
  unfold load, bind, os_getenv.
  destruct (nonempty (getenv C "DB_URI")) as [db_uri|]; [|cbv; lia].
  unfold call, raise, ret.
  destruct (from_uri C db_uri _ w) as [[e1|[]] w1]; [cbv; lia|].
  destruct (chat_anthropic C _ w1) as [[e2|[]] w2]; [cbv; lia|].
  specialize (Hfk (or_default (getenv C "DB_SCHEMA") "catalog") w2).
  destruct (get_detailed_schema_info _ w2) as [[r|schema_info] w3 t3];
    cbv beta iota zeta delta [result world trace] in *;
    repeat (rewrite ?app_nil_r; simpl app);
    exact Hfk.
Qed.

(** C7: the schema text is assembled once, when the module is loaded,
    and kept in the global [schema_info]: a run fetches the table
    information at most once, however many commands it serves, and every
    prompt it sends is built from the one value of the globals that the
    load produced. *)
Theorem schema_info_computed_once (fuel : nat) (w : World C) :
  fetches (trace (script fuel w)) <= 1
  /\ forall prompt : string,
      In (EInvoke prompt) (trace (script fuel w)) ->
      exists g : Globals, result (load w) = inr g /\ built_from g prompt.
Proof.
  pose proof (fetches_load w) as Hf.
  pose proof (no_prompt_load w) as Hn.
  unfold script, bind.
  destruct (load w) as [[r|g] w1 t1]; simpl in Hf, Hn.
  - split; [exact Hf|].
    intros prompt Hin. rewrite Forall_forall in Hn.
    destruct (Hn _ Hin).
  - pose proof (reuses_main g fuel w1) as Hm.
    destruct (main g fuel w1) as [r w2 t2]; simpl in Hm.
    cbv beta iota zeta delta [result world trace].
    split.
    + rewrite fetches_app, (fetches_reuses g _ Hm). lia.
    + intros prompt Hin. exists g. split; [reflexivity|].
      apply in_app_or in Hin as [Hin|Hin].
      * rewrite Forall_forall in Hn. destruct (Hn _ Hin).
      * rewrite Forall_forall in Hm. exact (Hm _ Hin).
Qed.

End ScriptFacts.

(** ** The script on a concrete world *)

(** C2, as stated, fails: with no question file, the command [file]
    ends the interactive session with an uncaught [ValueError]; nothing
    is printed about it by the script, the next line ([exit]) is never
    read, and the exit status is 1. *)
Lemma missing_question_file_stops_the_loop :
  let o := script (C := Sim.sim Sim.demo_env ["app.py"]) 10
                  (Sim.demo ["file"; "exit"] None) in
  result o
  = inl (Exc (mk_exception ValueError "Error: File ./question.md not found."))
  /\ Sim.sim_stdin (world o) = ["exit"]
  /\ exit_status o = Some 1%Z.
Proof. vm_compute. repeat split. Qed.

Lemma missing_question_file_escapes_witness :
  result (process_markdown_mode (C := Sim.sim Sim.demo_env ["app.py"; "--file"])
            (mk_globals "catalog" "") (Sim.demo [] None))
  = inl (Exc (mk_exception ValueError "Error: File ./question.md not found.")).
Proof.
  destruct (missing_question_file_escapes
              (C := Sim.sim Sim.demo_env ["app.py"; "--file"])
              (mk_globals "catalog" "") (Sim.demo [] None) (Sim.demo [] None)
              (mk_exception FileNotFoundError
                 "[Errno 2] No such file or directory"))
    as [H _].
  - reflexivity.
  - reflexivity.
  - rewrite H. reflexivity.
Defined.

Lemma get_detailed_schema_info_degrades_witness :
  result (get_detailed_schema_info (C := Sim.sim Sim.demo_env ["app.py"])
            "catalog" (Sim.demo [] None))
  = inr "CREATE TABLE catalog.orders (id integer)".
Proof.
  rewrite (get_detailed_schema_info_degrades
             (C := Sim.sim Sim.demo_env ["app.py"]) "catalog"
             "CREATE TABLE catalog.orders (id integer)"
             (Sim.demo [] None) (Sim.demo [] None) (Sim.demo [] None)
             (inl (mk_exception OtherException "syntax error"))).
  - reflexivity.
  - reflexivity.
  - reflexivity.
Defined.

Lemma generate_sql_query_reports_witness :
  result (generate_sql_query (C := Sim.sim Sim.demo_env ["app.py"])
            (mk_globals "catalog" "") "one" (Sim.demo [] None))
  = inr "[(1,)]".
Proof.
  rewrite (generate_sql_query_reports
             (C := Sim.sim Sim.demo_env ["app.py"])
             (mk_globals "catalog" "") "one"
             ("```sql" ++ nl ++ "SELECT 1;" ++ nl)
             (Sim.demo [] None) (Sim.demo [] None) (Sim.demo [] None)
             (inr "[(1,)]")).
  - reflexivity.
  - reflexivity.
  - reflexivity.
Defined.

Lemma missing_credential_exits_with_1_witness :
  exit_status (script (C := Sim.sim [("ANTHROPIC_API_KEY", "sk")] ["app.py"])
                 3 (Sim.demo ["exit"] None))
  = Some 1%Z.
Proof.
  apply (missing_credential_exits_with_1
           (C := Sim.sim [("ANTHROPIC_API_KEY", "sk")] ["app.py"])).
  left. reflexivity.
Defined.

Lemma schema_info_computed_once_witness :
  fetches (trace (script (C := Sim.sim Sim.demo_env ["app.py"]) 5
                    (Sim.demo ["query: one"; "how many tables?"; "exit"] None)))
  <= 1.
Proof.
  apply (schema_info_computed_once
           (C := Sim.sim Sim.demo_env ["app.py"]) 5
           (Sim.demo ["query: one"; "how many tables?"; "exit"] None)).
Defined.

(** On that run the bound is reached: one fetch at load, then two
    prompts, both carrying the schema text of the load. *)
Lemma demo_run_fetches_once_and_prompts_twice :
  let t := trace (script (C := Sim.sim Sim.demo_env ["app.py"]) 5
                    (Sim.demo ["query: one"; "how many tables?"; "exit"] None)) in
  fetches t = 1
  /\ length (filter (fun e => match e with EInvoke _ => true | _ => false end) t)
     = 2.
Proof. vm_compute. split; reflexivity. Qed.

(** * Further properties of the script *)

(** ** Extraction *)
Module MoreExtractFacts.
Import PyStr Extract PyStrFacts ExtractFacts.
Local Open Scope string_scope.

Lemma rstrip_idempotent (s : string) : rstrip (rstrip s) = rstrip s.
Proof.
  induction s as [|c r IH]; [reflexivity|].
  simpl. destruct (rstrip r) as [|d r'] eqn:E.
  - destruct (isspace c) eqn:Hc; [reflexivity|].
    simpl. now rewrite Hc.
  - change (rstrip (String c (String d r')) = String c (String d r')).
    simpl. simpl in IH. rewrite IH. reflexivity.
Qed.

Lemma strip_idempotent (s : string) : strip (strip s) = strip s.
Proof.
  unfold strip at 2 3. destruct (lstrip s) as [|c r] eqn:E; [reflexivity|].
  pose proof (lstrip_head _ _ _ E) as Hc.
  destruct (rstrip_head c r Hc) as [r' Hr'].
  unfold strip. rewrite Hr'. simpl lstrip. rewrite Hc, <- Hr'.
  apply rstrip_idempotent.
Qed.

Lemma before_fence_closed (block rest : list string) (marker : string) :
  forallb (fun l => negb (is_fence l)) block = true ->
  is_fence marker = true ->
  before_fence (block ++ marker :: rest) = block.
Proof.
  intros Hb Hm. induction block as [|l ls IH]; simpl.
  - now rewrite Hm.
  - simpl in Hb. apply andb_true_iff in Hb as [Hl Hls].
    apply negb_true_iff in Hl. rewrite Hl, (IH Hls). reflexivity.
Qed.

End MoreExtractFacts.

Import MoreExtractFacts.

(** X1: the extracted SQL carries no white space at either end:
    trimming it again changes nothing. *)
Theorem extract_sql_is_trimmed (response : string) :
  strip (extract_sql response) = extract_sql response.
Proof.
  unfold extract_sql.
  destruct (scan (split "010" response) false []); apply strip_idempotent.
Qed.

(** X2: when the first fence line is closed by a second one and lines
    stand between them, the extracted SQL is those lines, joined and
    trimmed: the prose before the block, the two fence lines (with any
    language tag) and everything after the closing fence play no part. *)
Theorem extract_sql_closed_block
  (response opening closing : string) (before block after : list string) :
  split "010" response
  = (before ++ opening :: block ++ closing :: after)%list ->
  forallb (fun l => negb (is_fence l)) (before ++ block)%list = true ->
  is_fence opening = true ->
  is_fence closing = true ->
  block <> [] ->
  extract_sql response = strip (join nl block).
Proof.
  intros Hsplit Hno Ho Hc Hblock.
  rewrite forallb_app in Hno. apply andb_true_iff in Hno as [Hbefore Hb].
  unfold extract_sql. rewrite scan_open_block, Hsplit. unfold open_block.
  rewrite (after_fence_first _ _ _ Hbefore Ho).
  rewrite (before_fence_closed _ _ _ Hb Hc).
  destruct block; [now contradiction Hblock|reflexivity].
Qed.

Lemma extract_sql_closed_block_witness :
  extract_sql ("Here is the query:" ++ nl ++ "```sql" ++ nl
               ++ "SELECT COUNT(*) FROM catalog.orders;" ++ nl
               ++ "``` some explanation" ++ nl ++ "```" ++ nl ++ "more")
  = "SELECT COUNT(*) FROM catalog.orders;".
Proof.
  rewrite (extract_sql_closed_block _ "```sql" "``` some explanation"
             ["Here is the query:"] ["SELECT COUNT(*) FROM catalog.orders;"]
             ["```"; "more"]).
  - reflexivity.
  - reflexivity.
  - reflexivity.
  - reflexivity.
  - reflexivity.
  - discriminate.
Defined.

(** X3: when the first fence line is directly followed by another fence
    line, nothing is collected and the fallback applies: the result is
    the first five lines of the response, fence lines included. *)
Theorem extract_sql_empty_block_falls_back
  (response opening closing : string) (before after : list string) :
  split "010" response = (before ++ opening :: closing :: after)%list ->
  forallb (fun l => negb (is_fence l)) before = true ->
  is_fence opening = true ->
  is_fence closing = true ->
  extract_sql response = strip (join nl (firstn 5 (split "010" response))).
Proof.
  intros Hsplit Hbefore Ho Hc.
  unfold extract_sql. rewrite scan_open_block, Hsplit. unfold open_block.
  rewrite (after_fence_first _ _ _ Hbefore Ho). simpl. rewrite Hc.
  reflexivity.
Qed.

Lemma extract_sql_empty_block_falls_back_witness :
  extract_sql ("```sql" ++ nl ++ "```" ++ nl ++ "SELECT 1;")
  = "```sql" ++ nl ++ "```" ++ nl ++ "SELECT 1;".
Proof.
  rewrite (extract_sql_empty_block_falls_back _ "```sql" "```" []
             ["SELECT 1;"]); reflexivity.
Defined.

(** A response made of white space only, or empty, gives the empty
    string. *)
Lemma extract_sql_of_blank_response (content : string) :
  blank content = true ->
  extract_sql (strip content) = "".
Proof.
  intro H. apply strip_empty_iff in H. rewrite H. reflexivity.
Qed.

Lemma extract_sql_of_blank_response_witness :
  extract_sql (strip ("  " ++ nl ++ " ")) = "".
Proof. apply extract_sql_of_blank_response. reflexivity. Defined.

(** ** Classification *)
Module ClassifyFacts.
Import PyStr.
Local Open Scope string_scope.

Lemma lower_append (a b : string) : lower (a ++ b) = lower a ++ lower b.
Proof. induction a as [|c r IH]; simpl; [reflexivity|now rewrite IH]. Qed.

Lemma lower_length (s : string) : String.length (lower s) = String.length s.
Proof. induction s as [|c r IH]; simpl; [reflexivity|now rewrite IH]. Qed.

Lemma slice_from_append (a b : string) :
  slice_from (String.length a) (a ++ b) = b.
Proof.
  induction a as [|c r IH]; simpl; [now destruct b|exact IH].
Qed.

(** White space has no lower-case form of its own. *)
Lemma lower_char_isspace (c : ascii) :
  isspace c = true -> lower_char c = c.
Proof.
  destruct c as [[] [] [] [] [] [] [] []]; vm_compute; congruence.
Qed.

End ClassifyFacts.

Import ClassifyFacts.

(** X5: a line that starts with [query:] (respectively [model:]) in any
    mix of cases is a query (a model analysis) whose question is the rest
    of the line, trimmed, with its own case kept. *)
Theorem classify_prefixed (prefix rest : string) :
  (lower prefix = "query:" ->
   classify (prefix ++ rest) = Query (strip rest))
  /\ (lower prefix = "model:" ->
      classify (prefix ++ rest) = ModelAnalysis (strip rest)).
Proof.
  assert (L : forall kw, lower prefix = kw -> String.length kw = 6 ->
                         slice_from 6 (prefix ++ rest) = rest).
  { intros kw Hkw Hlen. rewrite <- Hlen, <- Hkw, lower_length.
    apply slice_from_append. }
  split; intro H; unfold classify; rewrite lower_append, H;
    rewrite (L _ H eq_refl); unfold startswith; simpl;
    destruct (lower rest); reflexivity.
Qed.

Lemma classify_prefixed_witness :
  classify "Query:   How many Orders? " = Query "How many Orders?"
  /\ classify "MODEL:is it normalised" = ModelAnalysis "is it normalised".
Proof.
  split.
  - apply (proj1 (classify_prefixed "Query:" "   How many Orders? ")).
    reflexivity.
  - apply (proj2 (classify_prefixed "MODEL:" "is it normalised")).
    reflexivity.
Defined.

(** X6: the variant of the command depends on the line only through its
    lower-case form: two lines that differ by case alone select the same
    workflow. *)
Theorem classify_kind_ignores_case (a b : string) :
  lower a = lower b ->
  command_kind (classify a) = command_kind (classify b).
Proof.
  intro H. unfold classify. rewrite H.
  repeat match goal with
         | |- context [if ?c then _ else _] => destruct c
         end; reflexivity.
Qed.

Lemma classify_kind_ignores_case_witness :
  command_kind (classify "MoDeL: keys?") = command_kind (classify "model: KEYS?").
Proof. apply classify_kind_ignores_case. reflexivity. Defined.

(** X7: a line that starts with white space is never a command: the
    line is not trimmed before the tests, so it is taken whole as a direct
    question. *)
Theorem classify_leading_space (c : ascii) (rest : string) :
  isspace c = true ->
  classify (String c rest) = DirectQuestion (String c rest).
Proof.
  intro H. unfold classify. simpl lower. rewrite (lower_char_isspace c H).
  destruct c as [[] [] [] [] [] [] [] []]; try discriminate H; reflexivity.
Qed.

Lemma classify_leading_space_witness :
  classify " exit" = DirectQuestion " exit".
Proof. apply (classify_leading_space " " "exit"). reflexivity. Defined.

(** ** The workflows and the command loop *)
Section MoreScriptFacts.
Context {C : Collaborators}.

Ltac eval_script := cbv beta iota zeta delta [result world trace].

(** X8: the line [exit], in any case, ends the loop at once: nothing is
    printed, no collaborator is called and no further line is read. *)
Theorem interactive_loop_exit
  (g : Globals) (fuel : nat) (w w1 : World C) (line : string) :
  input C (nl ++ "Enter your question or command: ") w = (inr line, w1) ->
  lower line = "exit" ->
  interactive_loop g (S fuel) w =
  mk_outcome (inr true) w1 [EInput (nl ++ "Enter your question or command: ")].
Proof.
  intros Hin Hexit.
  unfold interactive_loop, bind, py_input, call. rewrite Hin. eval_script.
  unfold classify. rewrite Hexit. reflexivity.
Qed.

(** X9: an exception raised while reading a line, such as the
    [EOFError] at the end of standard input, is not caught: it ends the
    loop. *)
Theorem interactive_loop_input_failure
  (g : Globals) (fuel : nat) (w w1 : World C) (e : exception) :
  input C (nl ++ "Enter your question or command: ") w = (inl e, w1) ->
  interactive_loop g (S fuel) w =
  mk_outcome (inl (Exc e)) w1
    [EInput (nl ++ "Enter your question or command: ")].
Proof.
  intro Hin. unfold interactive_loop, bind, py_input, call.
  rewrite Hin. reflexivity.
Qed.

(** X10: in each of the three workflows a failure of the completion
    service is not caught: the exception leaves the function as it came,
    nothing is printed and the database is not queried. *)
Theorem llm_failure_propagates
  (prompt : Globals -> string -> string)
  (workflow : Globals -> string -> M C string)
  (g : Globals) (question : string) (w w1 : World C) (e : exception) :
  In (prompt, workflow)
     [(answer_prompt, answer_question);
      (analyze_prompt, analyze_database_model);
      (sql_prompt, generate_sql_query)] ->
  invoke C (prompt g question) w = (inl e, w1) ->
  workflow g question w =
  mk_outcome (inl (Exc e)) w1 [EInvoke (prompt g question)].
Proof.
  intros Hin Hllm. simpl in Hin.
  destruct Hin as [[= <- <-]|[[= <- <-]|[[= <- <-]|[]]]];
    unfold answer_question, analyze_database_model, generate_sql_query,
      bind, llm_invoke, call;
    rewrite Hllm; reflexivity.
Qed.

(** X11: whatever the user types, the only queries [explore_db] runs
    are samples [SELECT * FROM schema.table LIMIT 5;] of tables that the
    database itself listed. *)
Theorem explore_db_runs_listed_samples
  (g : Globals) (w w1 : World C) (tables : list string) :
  get_usable_table_names C w = (inr tables, w1) ->
  Forall (sample_of g tables) (trace (explore_db g w)).
Proof.
  intro Htables.
  unfold explore_db, bind, db_get_usable_table_names, py_input, db_run,
    call, print.
  rewrite Htables. eval_script.
  destruct (input C _ w1) as [[e|selected_table] w2]; eval_script;
    [repeat constructor|].
  destruct (py_in selected_table tables) eqn:Hin; eval_script.
  - assert (Hsample : sample_of g tables
              (ERun ("SELECT * FROM " ++ db_schema g ++ "." ++ selected_table
                     ++ " LIMIT 5;"))).
    { unfold py_in in Hin. apply existsb_exists in Hin as (t & Ht & Heq).
      apply String.eqb_eq in Heq. subst t.
      exists selected_table. split; [exact Ht|reflexivity]. }
    destruct (run C _ w2) as [[e|result] w3]; eval_script;
      repeat constructor; exact Hsample.
  - repeat constructor.
Qed.

(** X12: a table name that is not in the list is refused with a
    message, and no query is run. *)
Theorem explore_db_unknown_table
  (g : Globals) (w w1 w2 : World C) (tables : list string)
  (selected_table : string) :
  get_usable_table_names C w = (inr tables, w1) ->
  input C (nl ++ "Which table would you like to examine? ") w1
  = (inr selected_table, w2) ->
  ~ In selected_table tables ->
  explore_db g w =
  mk_outcome (inr tt) w2
    [EUsableTables;
     EPrint ("Available tables in '" ++ db_schema g ++ "' schema: "
             ++ join ", " tables);
     EInput (nl ++ "Which table would you like to examine? ");
     EPrint ("Table not found in the " ++ db_schema g ++ " schema.")].
Proof.
  intros Htables Hinput Hnot.
  unfold explore_db, bind, db_get_usable_table_names, py_input, db_run,
    call, print.
  rewrite Htables. eval_script. rewrite Hinput. eval_script.
  destruct (py_in selected_table tables) eqn:Hin; [|reflexivity].
  exfalso. apply Hnot. unfold py_in in Hin.
  apply existsb_exists in Hin as (t & Ht & Heq).
  apply String.eqb_eq in Heq. now subst t.
Qed.

(** X14: a question file that is empty or holds white space only gives
    the message that no question was found; the completion service is not
    called. *)
Theorem process_markdown_mode_blank_file
  (g : Globals) (w w1 : World C) (content : string) :
  open_read C "./question.md" w = (inr content, w1) ->
  blank content = true ->
  process_markdown_mode g w =
  mk_outcome (inr tt) w1
    [EOpen "./question.md"; EPrint "No question found in question.md file."].
Proof.
  intros Hopen Hblank. apply strip_empty_iff in Hblank.
  unfold process_markdown_mode, read_markdown_question, try_except, bind,
    py_open_read, call, ret, print.
  rewrite Hopen. eval_script. rewrite Hblank. reflexivity.
Qed.

(** X15: the content of the question file is tested for the prefixes
    [query:] and [model:] only: any other non-blank content, the words
    [exit], [explore] and [file] included, is announced and then answered
    as a direct question, trimmed. *)
Theorem process_markdown_mode_direct_question
  (g : Globals) (w w1 : World C) (content : string) :
  open_read C "./question.md" w = (inr content, w1) ->
  blank content = false ->
  startswith (lower (strip content)) "query:" = false ->
  startswith (lower (strip content)) "model:" = false ->
  let question := strip content in
  let o := answer_question g question w1 in
  process_markdown_mode g w =
  mk_outcome (match result o with inl r => inl r | inr _ => inr tt end)
    (world o)
    (EOpen "./question.md"
     :: EPrint (nl ++ "Processing question from question.md:" ++ nl
                ++ question ++ nl)
     :: trace o).
Proof.
  intros Hopen Hblank Hq Hm question o.
  assert (Hne : truthy question = true).
  { subst question. destruct (strip content) eqn:S; [|reflexivity].
    apply strip_empty_iff in S. congruence. }
  unfold process_markdown_mode, read_markdown_question, try_except, bind,
    py_open_read, call, ret, print.
  rewrite Hopen. eval_script. unfold nonempty. fold question.
  rewrite Hne. eval_script. fold question in Hq, Hm. rewrite Hq, Hm.
  fold o. destruct o as [[r|a] w2 t2]; eval_script;
    rewrite ?app_nil_r; reflexivity.
Qed.

(** X17: in file mode the script reads nothing from standard input,
    and its outcome does not depend on the bound put on the loop. *)
Theorem file_mode_reads_no_input (g : Globals) (fuel : nat) (w : World C) :
  file_mode (argv C) = true ->
  Forall no_input (trace (main g fuel w))
  /\ main g fuel w = main g 0 w.
Proof.
  intro Hfile.
  assert (P : traces (C := C) no_input (process_markdown_mode g)).
  { unfold process_markdown_mode, read_markdown_question, py_open_read,
      generate_sql_query, analyze_database_model, answer_question,
      run_and_report, llm_invoke, db_run.
    repeat
      lazymatch goal with
      | |- traces _ (bind _ _) => apply traces_bind; [|intro]
      | |- traces _ (try_except _ _) => apply traces_try_except; [|intro]
      | |- traces _ (ret _) => apply traces_ret
      | |- traces _ (raise _) => apply traces_raise
      | |- traces _ (print _) => apply traces_print; exact I
      | |- traces _ (call _ _) => apply traces_call; exact I
      | |- traces _ (if ?b then _ else _) => destruct b
      | |- traces _ (match ?x with _ => _ end) => destruct x
      end. }
  split.
  - specialize (P w). unfold main, bind, os_getenv, sys_argv, print, raise, ret.
    eval_script.
    destruct (unset (getenv C "ANTHROPIC_API_KEY")); eval_script;
      [repeat constructor|].
    rewrite Hfile.
    destruct (process_markdown_mode g w) as [[r|[]] w1 t1]; eval_script;
      simpl in P; rewrite ?app_nil_r; exact P.
  - unfold main, bind, os_getenv, sys_argv. eval_script.
    rewrite Hfile. reflexivity.
Qed.

(** The schema assembly raises nothing but an [Exception] of the first
    fetch. *)
Lemma get_detailed_schema_info_raises (db_schema : string) (w : World C)
      (r : raised) :
  result (get_detailed_schema_info db_schema w) = inl r ->
  exists e : exception, r = Exc e.
Proof.
  unfold get_detailed_schema_info, try_except, bind, db_get_table_info,
    db_run, call, print, ret.
  destruct (get_table_info C w) as [[e|base_info] w1]; eval_script.
  - intros [= <-]. now exists e.
  - destruct (run C _ w1) as [[e|fk_info] w2]; eval_script; discriminate.
Qed.

(** X18: a credential that is set to the empty string counts as
    missing: the process ends with exit status 1, and for [DB_URI] before
    any collaborator is called. *)
Theorem empty_credential_exits_with_1 (fuel : nat) (w : World C) :
  getenv C "DB_URI" = Some "" \/ getenv C "ANTHROPIC_API_KEY" = Some "" ->
  exit_status (script fuel w) = Some 1%Z
  /\ (getenv C "DB_URI" = Some "" -> trace (script fuel w) = []).
Proof.
  intro H. split.
  - unfold script, load, bind, os_getenv. eval_script.
    destruct (nonempty (getenv C "DB_URI")) as [db_uri|] eqn:U;
      [|reflexivity].
    destruct H as [H|H]; [rewrite H in U; discriminate U|].
    unfold call.
    destruct (from_uri C db_uri _ w) as [[e1|[]] w1]; eval_script;
      [reflexivity|].
    destruct (chat_anthropic C _ w1) as [[e2|[]] w2]; eval_script;
      [reflexivity|].
    pose proof (get_detailed_schema_info_raises
                  (or_default (getenv C "DB_SCHEMA") "catalog") w2) as R.
    destruct (get_detailed_schema_info _ w2) as [[r|schema_info] w3 t3];
      eval_script.
    + destruct (R r eq_refl) as [e ->]. reflexivity.
    + unfold main, bind, os_getenv, print, raise. eval_script.
      rewrite H. reflexivity.
  - intro U. unfold script, load, bind, os_getenv. eval_script.
    rewrite U. reflexivity.
Qed.

(** X19: the API key is only checked after the module is loaded: with
    [DB_URI] set and the key missing or empty, the database is opened and
    its schema fetched before the script reports the key and exits with
    status 1; no prompt is sent and no line is read. *)
Theorem api_key_checked_after_load
  (fuel : nat) (w w1 w2 w3 w4 : World C) (db_uri base_info : string)
  (fk : exception + string) :
  getenv C "DB_URI" = Some db_uri ->
  db_uri <> "" ->
  unset (getenv C "ANTHROPIC_API_KEY") = true ->
  let db_schema := or_default (getenv C "DB_SCHEMA") "catalog" in
  from_uri C db_uri db_schema w = (inr tt, w1) ->
  chat_anthropic C (getenv C "ANTHROPIC_API_KEY") w1 = (inr tt, w2) ->
  get_table_info C w2 = (inr base_info, w3) ->
  run C (fk_query db_schema) w3 = (fk, w4) ->
  script fuel w =
  mk_outcome (inl (SystemExit 1)) w4
    ([EFromUri db_uri db_schema;
      EChatAnthropic (getenv C "ANTHROPIC_API_KEY");
      ETableInfo;
      ERun (fk_query db_schema)]
     ++ match fk with
        | inl e =>
            [EPrint ("Warning: Could not fetch foreign key relationships: "
                     ++ exc_str e)]
        | inr _ => []
        end
     ++ [EPrint "ERROR: ANTHROPIC_API_KEY not found in environment variables.";
         EPrint "Add to your .env file or set it manually."]).
Proof.
  intros Huri Hne Hkey db_schema Hdb Hllm Hbase Hfk. subst db_schema.
  unfold script, load, bind, os_getenv. eval_script.
  rewrite Huri. unfold nonempty.
  destruct db_uri as [|c r]; [now contradiction Hne|].
  cbv beta iota zeta delta [result world trace truthy].
  unfold call, get_detailed_schema_info, try_except, bind,
    db_get_table_info, db_run, call, print, ret.
  rewrite Hdb. eval_script. rewrite Hllm. eval_script.
  rewrite Hbase. eval_script. rewrite Hfk.
  unfold main, bind, os_getenv, print, raise.
  destruct fk as [e|fk_info]; eval_script; rewrite Hkey; reflexivity.
Qed.

(** X20: once the module is loaded, the schema name is never empty; it
    is [catalog] when [DB_SCHEMA] is missing or empty. *)
Theorem load_schema_name (w : World C) (g : Globals) :
  result (load w) = inr g ->
  db_schema g <> ""
  /\ (unset (getenv C "DB_SCHEMA") = true -> db_schema g = "catalog").
Proof.
  unfold load, bind, os_getenv. eval_script.
  destruct (nonempty (getenv C "DB_URI")) as [db_uri|]; [|discriminate].
  unfold call.
  destruct (from_uri C db_uri _ w) as [[e1|[]] w1]; eval_script;
    [discriminate|].
  destruct (chat_anthropic C _ w1) as [[e2|[]] w2]; eval_script;
    [discriminate|].
  destruct (get_detailed_schema_info _ w2) as [[r|schema_info] w3 t3];
    eval_script; [discriminate|].
  unfold ret. intros [= <-]. simpl db_schema.
  destruct (getenv C "DB_SCHEMA") as [[|c s]|]; simpl; split;
    try discriminate; reflexivity.
Qed.

Lemma then_false_never_stops {A} (m : M C A) (w : World C) :
  result (bind m (fun _ => ret false) w) <> inr true.
Proof.
  unfold bind, ret. destruct (m w) as [[r|a] w1 t1]; eval_script; discriminate.
Qed.

(** X22: [exit] is the only command that leaves the loop in the normal
    way: after any other command the loop goes on, unless the command
    raised. *)
Theorem dispatch_stops_only_on_exit (g : Globals) (cmd : Command) (w : World C) :
  result (dispatch g cmd w) = inr true <-> cmd = Exit.
Proof.
  split.
  - destruct cmd; simpl; intro H; try reflexivity;
      exfalso; revert H; apply then_false_never_stops.
  - intros ->. reflexivity.
Qed.

(** X4: when the model answers with white space only, the extracted
    SQL is empty and the empty string is what the database is asked to
    run. *)
Theorem generate_sql_query_blank_response
  (g : Globals) (question content : string) (w w1 : World C) :
  invoke C (sql_prompt g question) w = (inr content, w1) ->
  blank content = true ->
  exists rest : list event,
    trace (generate_sql_query g question w)
    = EInvoke (sql_prompt g question)
      :: EPrint (nl ++ "Generated SQL: " ++ "" ++ nl)
      :: ERun "" :: rest.
Proof.
  intros Hllm Hblank. apply strip_empty_iff in Hblank.
  unfold generate_sql_query, run_and_report, try_except, bind, llm_invoke,
    db_run, call, print, ret.
  rewrite Hllm. eval_script. rewrite Hblank.
  change (extract_sql "") with "".
  destruct (run C "" w1) as [[e|result] w2]; eval_script;
    eexists; reflexivity.
Qed.

(** One iteration of the loop, spelled out. *)
Lemma interactive_loop_step (g : Globals) (fuel : nat) (w : World C) :
  interactive_loop g (S fuel) w =
  match py_input (nl ++ "Enter your question or command: ") w with
  | mk_outcome (inl r) w1 t1 => mk_outcome (inl r) w1 t1
  | mk_outcome (inr user_input) w1 t1 =>
      match dispatch g (classify user_input) w1 with
      | mk_outcome (inl r) w2 t2 => mk_outcome (inl r) w2 (t1 ++ t2)
      | mk_outcome (inr true) w2 t2 => mk_outcome (inr true) w2 (t1 ++ t2 ++ [])
      | mk_outcome (inr false) w2 t2 =>
          match interactive_loop g fuel w2 with
          | mk_outcome r w3 t3 => mk_outcome r w3 (t1 ++ t2 ++ t3)
          end
      end
  end.
Proof.
  change (interactive_loop g (S fuel) w)
    with (bind (py_input (nl ++ "Enter your question or command: "))
            (fun user_input =>
               bind (dispatch g (classify user_input))
                 (fun stop : bool =>
                    if stop then ret true else interactive_loop g fuel)) w).
  unfold bind at 1.
  destruct (py_input _ w) as [[r|user_input] w1 t1]; [reflexivity|].
  unfold bind.
  destruct (dispatch g (classify user_input) w1) as [[r|[]] w2 t2];
    try reflexivity.
  destruct (interactive_loop g fuel w2) as [r3 w3 t3]. reflexivity.
Qed.

(** The loop gives the same outcome under any larger bound, once it ends
    within the smaller one. *)
Lemma interactive_loop_fuel_monotone (g : Globals) (fuel : nat) :
  forall (w : World C) (fuel' : nat),
    result (interactive_loop g fuel w) <> inr false ->
    fuel <= fuel' ->
    interactive_loop g fuel' w = interactive_loop g fuel w.
Proof.
  induction fuel as [|fuel IH]; intros w fuel' Hend Hle.
  - now contradiction Hend.
  - destruct fuel' as [|fuel']; [lia|].
    assert (Hle' : fuel <= fuel') by lia.
    revert Hend. rewrite !interactive_loop_step.
    destruct (py_input _ w) as [[r|user_input] w1 t1]; [reflexivity|].
    destruct (dispatch g (classify user_input) w1) as [[r|[]] w2 t2];
      try reflexivity.
    specialize (IH w2 fuel').
    destruct (interactive_loop g fuel w2) as [r3 w3 t3] eqn:E3.
    intro Hend. rewrite IH; [reflexivity|exact Hend|exact Hle'].
Qed.

Lemma main_fuel_monotone (g : Globals) (fuel fuel' : nat) (w : World C) :
  result (main g fuel w) <> inr false ->
  fuel <= fuel' ->
  main g fuel' w = main g fuel w.
Proof.
  intros Hend Hle. revert Hend.
  unfold main, bind, os_getenv, sys_argv, print. eval_script.
  destruct (unset (getenv C "ANTHROPIC_API_KEY")); [reflexivity|].
  destruct (file_mode (argv C)); [reflexivity|].
  pose proof (interactive_loop_fuel_monotone g fuel w fuel') as IH.
  destruct (interactive_loop g fuel w) as [r3 w3 t3] eqn:E3.
  eval_script. intro Hend.
  rewrite IH; [reflexivity|exact Hend|exact Hle].
Qed.

(** The bound on the loop is harmless: a run that ends within a bound on
    the number of commands ends in the same way, with the same trace,
    under every larger bound. *)
Lemma script_fuel_monotone (fuel fuel' : nat) (w : World C) :
  exit_status (script fuel w) <> None ->
  fuel <= fuel' ->
  script fuel' w = script fuel w.
Proof.
  intros Hend Hle. revert Hend. unfold script, bind.
  destruct (load w) as [[r|g] w1 t1]; [reflexivity|].
  pose proof (main_fuel_monotone g fuel fuel' w1) as IH.
  destruct (main g fuel w1) as [r2 w2 t2] eqn:E2.
  unfold exit_status. eval_script. intro Hend.
  rewrite IH; [reflexivity| |exact Hle].
  simpl. intros ->. now apply Hend.
Qed.

(** X13: unlike [generate_sql_query], [explore_db] does not catch a
    failure of the sample query: the exception leaves the function after
    the table list and the query text have been printed. *)
Theorem explore_db_query_failure
  (g : Globals) (w w1 w2 w3 : World C) (tables : list string)
  (selected_table : string) (e : exception) :
  get_usable_table_names C w = (inr tables, w1) ->
  input C (nl ++ "Which table would you like to examine? ") w1
  = (inr selected_table, w2) ->
  In selected_table tables ->
  let sample_query :=
    "SELECT * FROM " ++ db_schema g ++ "." ++ selected_table ++ " LIMIT 5;" in
  run C sample_query w2 = (inl e, w3) ->
  explore_db g w =
  mk_outcome (inl (Exc e)) w3
    [EUsableTables;
     EPrint ("Available tables in '" ++ db_schema g ++ "' schema: "
             ++ join ", " tables);
     EInput (nl ++ "Which table would you like to examine? ");
     EPrint (nl ++ "Executing: " ++ sample_query);
     ERun sample_query].
Proof.
  intros Htables Hinput Hin sample_query Hrun. subst sample_query.
  assert (Hmem : py_in selected_table tables = true).
  { unfold py_in. apply existsb_exists. exists selected_table.
    split; [exact Hin|apply String.eqb_refl]. }
  unfold explore_db, bind, db_get_usable_table_names, py_input, db_run,
    call, print.
  rewrite Htables. eval_script. rewrite Hinput. eval_script.
  rewrite Hmem. eval_script. rewrite Hrun. reflexivity.
Qed.

(** X21: the first fetch of the schema assembly is not protected: when
    the table information cannot be fetched, the exception leaves
    [get_detailed_schema_info] and the foreign-key query is not tried. *)
Theorem get_detailed_schema_info_base_failure
  (db_schema : string) (w w1 : World C) (e : exception) :
  get_table_info C w = (inl e, w1) ->
  get_detailed_schema_info db_schema w
  = mk_outcome (inl (Exc e)) w1 [ETableInfo].
Proof.
  intro Hbase.
  unfold get_detailed_schema_info, bind, db_get_table_info, call.
  rewrite Hbase. reflexivity.
Qed.

(** X25: a session in which the first line typed is [exit] prints the
    banner, reads that one line and ends with exit status 0. *)
Theorem script_exit_at_once
  (fuel : nat) (w w1 w2 : World C) (g : Globals) (loaded : list event)
  (line : string) :
  load w = mk_outcome (inr g) w1 loaded ->
  unset (getenv C "ANTHROPIC_API_KEY") = false ->
  file_mode (argv C) = false ->
  input C (nl ++ "Enter your question or command: ") w1 = (inr line, w2) ->
  lower line = "exit" ->
  exit_status (script (S fuel) w) = Some 0%Z
  /\ world (script (S fuel) w) = w2
  /\ trace (script (S fuel) w)
     = (loaded
       ++ [EPrint ("Database Analyzer - " ++ db_schema g ++ " schema");
           EPrint "---------------------------------------";
           EPrint "Commands:";
           EPrint "  'explore' - Browse tables and see sample data";
           EPrint "  'query: [your question]' - Generate and run a SQL query";
           EPrint "  'model: [your question]' - Analyze database model/design";
           EPrint "  'exit' - Quit the application";
           EPrint "  'file' - Read question from question.md file";
           EPrint "  Any other input - Ask a question about the database";
           EPrint "---------------------------------------";
           EInput (nl ++ "Enter your question or command: ")])%list.
Proof.
  intros Hload Hkey Hfile Hin Hexit.
  assert (Hloop : interactive_loop g (S fuel) w1
                  = mk_outcome (inr true) w2
                      [EInput (nl ++ "Enter your question or command: ")]).
  { unfold interactive_loop, bind, py_input, call. rewrite Hin. eval_script.
    unfold classify. rewrite Hexit. reflexivity. }
  assert (Hmain : main g (S fuel) w1
                  = match interactive_loop g (S fuel) w1 with
                    | mk_outcome r w' t =>
                        mk_outcome r w'
                          ([EPrint ("Database Analyzer - " ++ db_schema g
                                    ++ " schema");
                            EPrint "---------------------------------------";
                            EPrint "Commands:";
                            EPrint "  'explore' - Browse tables and see sample data";
                            EPrint "  'query: [your question]' - Generate and run a SQL query";
                            EPrint "  'model: [your question]' - Analyze database model/design";
                            EPrint "  'exit' - Quit the application";
                            EPrint "  'file' - Read question from question.md file";
                            EPrint "  Any other input - Ask a question about the database";
                            EPrint "---------------------------------------"]
                           ++ t)%list
                    end).
  { unfold main, bind, os_getenv, sys_argv, print. eval_script.
    rewrite Hkey, Hfile.
    destruct (interactive_loop g (S fuel) w1) as [r w' t]. reflexivity. }
  assert (Hscript : script (S fuel) w
                    = match main g (S fuel) w1 with
                      | mk_outcome r w' t => mk_outcome r w' (loaded ++ t)%list
                      end).
  { unfold script, bind. rewrite Hload. reflexivity. }
  rewrite Hscript, Hmain, Hloop. repeat split.
Qed.

End MoreScriptFacts.

(** ** Termination on a finite standard input *)
Section SimFacts.
Variable env : list (string * string).
Variable args : list string.

Local Abbreviation S0 := (Sim.sim env args).

Lemma shrinks_ret {A} (a : A) : Sim.shrinks (env := env) (args := args) (ret a).
Proof. intro w. simpl. lia. Qed.

Lemma shrinks_raise {A} (r : raised) :
  Sim.shrinks (env := env) (args := args) (raise (A := A) r).
Proof. intro w. simpl. lia. Qed.

Lemma shrinks_print (text : string) :
  Sim.shrinks (env := env) (args := args) (print text).
Proof. intro w. simpl. lia. Qed.

Lemma shrinks_call {A} (ev : event)
      (f : Sim.SimWorld -> (exception + A) * Sim.SimWorld) :
  (forall w, length (Sim.sim_stdin (snd (f w))) <= length (Sim.sim_stdin w)) ->
  Sim.shrinks (env := env) (args := args) (call (C := S0) ev f).
Proof.
  intros H w. specialize (H w). unfold call.
  destruct (f w) as [r w']. exact H.
Qed.

Lemma shrinks_bind {A B} (m : M S0 A) (k : A -> M S0 B) :
  Sim.shrinks m -> (forall a, Sim.shrinks (k a)) -> Sim.shrinks (bind m k).
Proof.
  intros Hm Hk w. specialize (Hm w). unfold bind.
  destruct (m w) as [[r|a] w1 t1]; simpl in *; [exact Hm|].
  specialize (Hk a w1). destruct (k a w1) as [r w2 t2]; simpl in *. lia.
Qed.

Lemma shrinks_try_except {A} (body : M S0 A) (handler : exception -> M S0 A) :
  Sim.shrinks body -> (forall e, Sim.shrinks (handler e)) ->
  Sim.shrinks (try_except body handler).
Proof.
  intros Hb Hh w. specialize (Hb w). unfold try_except.
  destruct (body w) as [[[e|code]|a] w1 t1]; simpl in *; try exact Hb.
  specialize (Hh e w1). destruct (handler e w1) as [r w2 t2]; simpl in *. lia.
Qed.

Lemma sim_input_shrinks (w : Sim.SimWorld) :
  length (Sim.sim_stdin (snd (Sim.sim_input w))) <= length (Sim.sim_stdin w).
Proof.
  unfold Sim.sim_input. destruct (Sim.sim_stdin w) eqn:E; simpl; rewrite ?E;
    simpl; lia.
Qed.

Lemma sim_open_read_shrinks (path : string) (w : Sim.SimWorld) :
  length (Sim.sim_stdin (snd (Sim.sim_open_read path w)))
  <= length (Sim.sim_stdin w).
Proof.
  unfold Sim.sim_open_read.
  destruct (Sim.sim_question_md w); [destruct (String.eqb _ _)|]; simpl; lia.
Qed.

Ltac shrink_step :=
  lazymatch goal with
  | |- Sim.shrinks (bind _ _) => apply shrinks_bind; [|intro]
  | |- Sim.shrinks (try_except _ _) => apply shrinks_try_except; [|intro]
  | |- Sim.shrinks (ret _) => apply shrinks_ret
  | |- Sim.shrinks (raise _) => apply shrinks_raise
  | |- Sim.shrinks (print _) => apply shrinks_print
  | |- Sim.shrinks (call _ (input _ _)) =>
      apply shrinks_call; intro; apply sim_input_shrinks
  | |- Sim.shrinks (call _ (open_read _ _)) =>
      apply shrinks_call; intro; apply sim_open_read_shrinks
  | |- Sim.shrinks (call _ _) => apply shrinks_call; intro; simpl; lia
  | |- Sim.shrinks (if ?b then _ else _) => destruct b
  | |- Sim.shrinks (match ?x with _ => _ end) => destruct x
  end.

Lemma shrinks_dispatch (g : Globals) (cmd : Command) :
  Sim.shrinks (env := env) (args := args) (dispatch g cmd).
Proof.
  destruct cmd; simpl;
    unfold explore_db, process_markdown_mode, read_markdown_question,
      generate_sql_query, analyze_database_model, answer_question,
      run_and_report, llm_invoke, db_run, db_get_usable_table_names,
      py_input, py_open_read;
    repeat shrink_step.
Qed.

(** With more iterations allowed than lines left to read, the loop ends:
    by [exit], or by an exception, at the latest the [EOFError] of the
    end of the input. *)
Lemma interactive_loop_ends (g : Globals) (fuel : nat) :
  forall w : Sim.SimWorld,
    length (Sim.sim_stdin w) < fuel ->
    result (interactive_loop (C := S0) g fuel w) <> inr false.
Proof.
  induction fuel as [|fuel IH]; intros w Hlen; [lia|].
  rewrite interactive_loop_step.
  unfold py_input, call. simpl input. unfold Sim.sim_input.
  destruct (Sim.sim_stdin w) as [|line rest] eqn:E; [discriminate|].
  cbv beta iota zeta.
  match goal with
  | |- context [@dispatch ?c g ?cmd ?w1] =>
      pose proof (shrinks_dispatch g cmd w1) as Hd; revert Hd;
      destruct (@dispatch c g cmd w1) as [[r|[]] w2 t2]; intro Hd
  end; try discriminate.
  simpl in Hd. simpl in Hlen.
  specialize (IH w2).
  destruct (interactive_loop g fuel w2) as [r3 w3 t3].
  simpl in *. apply IH. lia.
Qed.

Lemma load_keeps_stdin :
  Sim.shrinks (env := env) (args := args) load.
Proof.
  unfold load, get_detailed_schema_info, db_get_table_info, db_run, os_getenv.
  repeat
    lazymatch goal with
    | |- Sim.shrinks (bind (fun w => _) _) =>
        apply shrinks_bind; [intro; simpl; lia|intro]
    | _ => shrink_step
    end.
Qed.

(** X24: on a finite standard input the script terminates: once the
    bound on the loop exceeds the number of lines to read, every run
    reaches an exit status, whatever the database and the completion
    service answer. *)
Theorem script_terminates_on_finite_input (fuel : nat) (w : Sim.SimWorld) :
  length (Sim.sim_stdin w) < fuel ->
  exit_status (script (C := S0) fuel w) <> None.
Proof.
  intro Hlen. pose proof (load_keeps_stdin w) as Hload. revert Hload.
  unfold script, bind.
  destruct (load (C := S0) w) as [[r|g] w1 t1]; intro Hload; [discriminate|].
  simpl in Hload.
  unfold main, bind, os_getenv, sys_argv, print, raise, ret.
  cbv beta iota zeta delta [result world trace].
  destruct (unset _); [discriminate|].
  destruct (file_mode _).
  - destruct (process_markdown_mode (C := S0) g w1) as [[r|[]] w2 t2];
      discriminate.
  - pose proof (interactive_loop_ends g fuel w1) as Hloop. revert Hloop.
    destruct (interactive_loop (C := S0) g fuel w1) as [r3 w3 t3].
    intro Hloop.
    unfold exit_status. simpl in *.
    destruct r3 as [r|[]]; try discriminate.
    exfalso. apply Hloop; [lia|reflexivity].
Qed.

End SimFacts.

(** ** The further properties on concrete worlds *)

Lemma interactive_loop_exit_witness :
  interactive_loop (C := Sim.interactive) Sim.demo_globals 1
    (Sim.demo ["EXIT"; "explore"] None)
  = mk_outcome (C := Sim.interactive) (inr true) (Sim.demo ["explore"] None)
      [EInput (nl ++ "Enter your question or command: ")].
Proof.
  apply (interactive_loop_exit (C := Sim.interactive) Sim.demo_globals 0
           (Sim.demo ["EXIT"; "explore"] None) (Sim.demo ["explore"] None)
           "EXIT").
  - reflexivity.
  - reflexivity.
Defined.

Lemma interactive_loop_input_failure_witness :
  result (interactive_loop (C := Sim.interactive) Sim.demo_globals 1
            (Sim.demo [] None))
  = inl (Exc (mk_exception EOFError "EOF when reading a line")).
Proof.
  rewrite (interactive_loop_input_failure (C := Sim.interactive)
             Sim.demo_globals 0 (Sim.demo [] None) (Sim.demo [] None)
             (mk_exception EOFError "EOF when reading a line")).
  - reflexivity.
  - reflexivity.
Defined.

Lemma llm_failure_propagates_witness :
  trace (generate_sql_query (C := Sim.interactive) Sim.demo_globals "one"
           (Sim.offline [] None))
  = [EInvoke (sql_prompt Sim.demo_globals "one")].
Proof.
  rewrite (llm_failure_propagates (C := Sim.interactive)
             sql_prompt generate_sql_query Sim.demo_globals "one"
             (Sim.offline [] None) (Sim.offline [] None)
             (mk_exception OtherException "Connection error.")).
  - reflexivity.
  - simpl. auto.
  - reflexivity.
Defined.

Lemma explore_db_runs_listed_samples_witness :
  Forall (sample_of Sim.demo_globals ["orders"])
    (trace (explore_db (C := Sim.interactive) Sim.demo_globals
              (Sim.demo ["orders"] None))).
Proof.
  apply (explore_db_runs_listed_samples (C := Sim.interactive)
           Sim.demo_globals (Sim.demo ["orders"] None)
           (Sim.demo ["orders"] None) ["orders"]).
  reflexivity.
Defined.

Lemma explore_db_unknown_table_witness :
  result (explore_db (C := Sim.interactive) Sim.demo_globals
            (Sim.demo ["orders; DROP TABLE orders"] None))
  = inr tt.
Proof.
  rewrite (explore_db_unknown_table (C := Sim.interactive) Sim.demo_globals
             (Sim.demo ["orders; DROP TABLE orders"] None)
             (Sim.demo ["orders; DROP TABLE orders"] None)
             (Sim.demo [] None) ["orders"] "orders; DROP TABLE orders").
  - reflexivity.
  - reflexivity.
  - reflexivity.
  - simpl. intros [H|[]]. discriminate H.
Defined.

Lemma process_markdown_mode_blank_file_witness :
  trace (process_markdown_mode (C := Sim.interactive) Sim.demo_globals
           (Sim.demo [] (Some ("  " ++ nl))))
  = [EOpen "./question.md"; EPrint "No question found in question.md file."].
Proof.
  rewrite (process_markdown_mode_blank_file (C := Sim.interactive)
             Sim.demo_globals (Sim.demo [] (Some ("  " ++ nl)))
             (Sim.demo [] (Some ("  " ++ nl))) ("  " ++ nl)).
  - reflexivity.
  - reflexivity.
  - reflexivity.
Defined.

Lemma process_markdown_mode_direct_question_witness :
  result (process_markdown_mode (C := Sim.interactive) Sim.demo_globals
            (Sim.demo [] (Some ("exit" ++ nl))))
  = inr tt.
Proof.
  rewrite (process_markdown_mode_direct_question (C := Sim.interactive)
             Sim.demo_globals (Sim.demo [] (Some ("exit" ++ nl)))
             (Sim.demo [] (Some ("exit" ++ nl))) ("exit" ++ nl)).
  - reflexivity.
  - reflexivity.
  - reflexivity.
  - reflexivity.
  - reflexivity.
Defined.

Lemma unreadable_question_file_is_reported_witness :
  trace (process_markdown_mode
           (C := Sim.sim_unreadable Sim.demo_env ["app.py"; "--file"])
           Sim.demo_globals (Sim.demo [] None))
  = [EOpen "./question.md";
     EPrint "Error reading file: [Errno 13] Permission denied";
     EPrint "No question found in question.md file."].
Proof.
  rewrite (unreadable_question_file_is_reported
             (C := Sim.sim_unreadable Sim.demo_env ["app.py"; "--file"])
             Sim.demo_globals (Sim.demo [] None) (Sim.demo [] None)
             (mk_exception OtherException "[Errno 13] Permission denied")).
  - reflexivity.
  - reflexivity.
  - discriminate.
Defined.

Lemma file_mode_reads_no_input_witness :
  Forall no_input
    (trace (main (C := Sim.sim Sim.demo_env ["app.py"; "--file"])
              Sim.demo_globals 3 (Sim.demo ["exit"] (Some "query: one")))).
Proof.
  apply (file_mode_reads_no_input
           (C := Sim.sim Sim.demo_env ["app.py"; "--file"])
           Sim.demo_globals 3 (Sim.demo ["exit"] (Some "query: one"))).
  reflexivity.
Defined.

Lemma empty_credential_exits_with_1_witness :
  exit_status (script (C := Sim.sim [("DB_URI", "")] ["app.py"]) 3
                 (Sim.demo ["exit"] None))
  = Some 1%Z.
Proof.
  apply (empty_credential_exits_with_1
           (C := Sim.sim [("DB_URI", "")] ["app.py"])).
  left. reflexivity.
Defined.

Lemma api_key_checked_after_load_witness :
  result (script (C := Sim.sim [("DB_URI", "postgresql://localhost/demo")]
                         ["app.py"])
            3 (Sim.demo ["exit"] None))
  = inl (SystemExit 1).
Proof.
  rewrite (api_key_checked_after_load
             (C := Sim.sim [("DB_URI", "postgresql://localhost/demo")]
                           ["app.py"])
             3 (Sim.demo ["exit"] None) (Sim.demo ["exit"] None)
             (Sim.demo ["exit"] None) (Sim.demo ["exit"] None)
             (Sim.demo ["exit"] None) "postgresql://localhost/demo"
             "CREATE TABLE catalog.orders (id integer)"
             (inl (mk_exception OtherException "syntax error"))).
  - reflexivity.
  - reflexivity.
  - discriminate.
  - reflexivity.
  - reflexivity.
  - reflexivity.
  - reflexivity.
  - reflexivity.
Defined.

Lemma script_terminates_on_finite_input_witness :
  exit_status (script (C := Sim.interactive) 2 (Sim.demo ["hello"] None))
  <> None.
Proof.
  apply (script_terminates_on_finite_input Sim.demo_env ["app.py"] 2
           (Sim.demo ["hello"] None)).
  simpl. lia.
Defined.

Lemma load_schema_name_witness :
  db_schema Sim.demo_globals <> "".
Proof.
  apply (load_schema_name (C := Sim.interactive) (Sim.demo [] None)
           Sim.demo_globals).
  reflexivity.
Defined.

Lemma generate_sql_query_blank_response_witness :
  exists rest : list event,
    trace (generate_sql_query (C := Sim.interactive) Sim.demo_globals "one"
             (Sim.mk_sim [] None (inr "") [] (fun _ => inr "[]")
                         (fun _ => inr ("  " ++ nl))))
    = EInvoke (sql_prompt Sim.demo_globals "one")
      :: EPrint (nl ++ "Generated SQL: " ++ "" ++ nl)
      :: ERun "" :: rest.
Proof.
  apply (generate_sql_query_blank_response (C := Sim.interactive)
           Sim.demo_globals "one" ("  " ++ nl)
           (Sim.mk_sim [] None (inr "") [] (fun _ => inr "[]")
                       (fun _ => inr ("  " ++ nl)))
           (Sim.mk_sim [] None (inr "") [] (fun _ => inr "[]")
                       (fun _ => inr ("  " ++ nl)))).
  - reflexivity.
  - reflexivity.
Defined.

Lemma explore_db_query_failure_witness :
  result (explore_db (C := Sim.interactive) (mk_globals "catalog" "")
            (Sim.demo ["orders"] None))
  = inl (Exc (mk_exception OtherException "syntax error")).
Proof.
  rewrite (explore_db_query_failure (C := Sim.interactive)
             (mk_globals "catalog" "") (Sim.demo ["orders"] None)
             (Sim.demo ["orders"] None) (Sim.demo [] None) (Sim.demo [] None)
             ["orders"] "orders"
             (mk_exception OtherException "syntax error")).
  - reflexivity.
  - reflexivity.
  - reflexivity.
  - simpl. auto.
  - reflexivity.
Defined.

Lemma get_detailed_schema_info_base_failure_witness :
  trace (get_detailed_schema_info (C := Sim.interactive) "catalog"
           (Sim.mk_sim [] None
              (inl (mk_exception OtherException "connection refused"))
              [] (fun _ => inr "[]") (fun _ => inr "")))
  = [ETableInfo].
Proof.
  rewrite (get_detailed_schema_info_base_failure (C := Sim.interactive)
             "catalog"
             (Sim.mk_sim [] None
                (inl (mk_exception OtherException "connection refused"))
                [] (fun _ => inr "[]") (fun _ => inr ""))
             (Sim.mk_sim [] None
                (inl (mk_exception OtherException "connection refused"))
                [] (fun _ => inr "[]") (fun _ => inr ""))
             (mk_exception OtherException "connection refused")).
  - reflexivity.
  - reflexivity.
Defined.

Lemma script_exit_at_once_witness :
  exit_status (script (C := Sim.interactive) 1 (Sim.demo ["Exit"] None))
  = Some 0%Z.
Proof.
  apply (script_exit_at_once (C := Sim.interactive) 0
           (Sim.demo ["Exit"] None) (Sim.demo ["Exit"] None)
           (Sim.demo [] None) Sim.demo_globals
           [EFromUri "postgresql://localhost/demo" "catalog";
            EChatAnthropic (Some "sk");
            ETableInfo;
            ERun (fk_query "catalog");
            EPrint "Warning: Could not fetch foreign key relationships: syntax error"]
           "Exit").
  - reflexivity.
  - reflexivity.
  - reflexivity.
  - reflexivity.
  - reflexivity.
Defined.
